(** * OntoAttentionLSTM: the attention step of onto-lstm over the reals

    A shallow embedding of [src/onto_attention.py].  Tensors of floats are
    nested lists of real numbers; every definition is the computation for ONE
    sample (the backend broadcasts each operation over the leading samples
    axis, and no operation of the step mixes two samples).  Axes of one
    sample at one timestep:

      x_onto_aware  : senses x hyps x (embedding_dim + 1)
      mask_i        : senses x hyps   (the trailing axis of length 1 of the
                      source's mask is not represented: [K.squeeze(mask_i,
                      axis=-1)] is the identity here, and [K.switch(mask_i,
                      x, zeros)] applies a slot's bit to its whole embedding)

    Backend operations ([K.dot], [K.sum], [K.switch], [K.softmax], ...) are
    written out on lists.  Where the backend raises on operands of different
    shapes, [zip_with] stops at the shorter one; the theorems state the shapes
    they rely on.

    The numbers are exact reals: rounding, underflow and overflow of the
    backend's floats are not represented.  The numbered statements about
    values are therefore equalities between formulas, exact zeros and
    non-strict orderings; they state a strict ordering only at a concrete
    input.

    The mask handed to [compute_mask] is a tensor of any rank, given by its
    shape and its entries by index, so that the axes -3 and -2 of the source
    are computed from the rank. *)

From Stdlib Require Import String.
From Stdlib Require Import Reals List ZArith Bool Lia Lra.
Import ListNotations.

Local Open Scope R_scope.

(** ** Lists as tensors *)

Definition vec := list R.
Definition mat := list (list R).
Definition grid (A : Type) := list (list A).
Definition tensor3 := list (list (list R)).

Fixpoint zip_with {A B C : Type} (f : A -> B -> C) (l : list A) (l' : list B)
  : list C :=
  match l, l' with
  | a :: t, b :: t' => f a b :: zip_with f t t'
  | _, _ => []
  end.

(** [K.sum] of a vector of floats. *)
Definition K_sum (l : list R) : R := fold_right Rplus 0 l.

(** [K.sum] of integer (mask) entries. *)
Definition K_sum_int (l : list Z) : Z := fold_right Z.add 0%Z l.

(** [K.switch(condition, then, else)] on one entry: the backend selects
    [then] where the condition is non-zero. *)
Definition K_switch {A : Type} (condition : Z) (then_expression else_expression : A) : A :=
  if Z.eqb condition 0 then else_expression else then_expression.

(** A mask bit as the 0/1 integer the backend stores. *)
Definition bit (b : bool) : Z := Z.b2z b.

(** Shape predicate: a grid with [n] rows of [m] entries each. *)
Definition rect {A : Type} (n m : nat) (g : grid A) : Prop :=
  length g = n /\ Forall (fun row => length row = m) g.

(** ** Sense probabilities ([_step], lines 81-94) *)

Section SenseProbabilities.

(** [K.epsilon()], the backend's fuzz constant. *)
Variable epsilon : R.

(** [x_onto_aware[:, 0, 0, -1]]: the lambda of the exponential distribution,
    read at sense 0, hyp 0, last component. *)
Definition sense_parameters (x_onto_aware : tensor3) : R :=
  last (nth 0 (nth 0 x_onto_aware []) []) 0.

(** [K.cast_to_floatx([[ind for ind in range(self.num_senses)]])] *)
Definition sense_indices (num_senses : nat) : list R :=
  map INR (seq 0 num_senses).

(** [sense_parameters * K.exp(-sense_parameters * expanded_sense_indices)] *)
Definition raw_sense_scores (lam : R) (num_senses : nat) : list R :=
  map (fun ind => lam * exp (- lam * ind)) (sense_indices num_senses).

(** [K.sum(K.squeeze(mask_i, axis=-1), axis=2)]: per sense, the number of
    unmasked hyps. *)
Definition sense_mask (mask_i : grid bool) : list Z :=
  map (fun row => K_sum_int (map bit row)) mask_i.

(** Lines 89-93: the raw scores, switched to zero where [sense_mask] is zero
    when a mask is present. *)
Definition sense_scores (lam : R) (num_senses : nat)
           (mask_i : option (grid bool)) : list R :=
  match mask_i with
  | Some m =>
      zip_with (fun c s => K_switch c s 0) (sense_mask m)
               (raw_sense_scores lam num_senses)
  | None => raw_sense_scores lam num_senses
  end.

(** Line 94: [sense_scores / (K.sum(sense_scores, axis=1) + K.epsilon())] *)
Definition sense_probabilities (lam : R) (num_senses : nat)
           (mask_i : option (grid bool)) : list R :=
  let scores := sense_scores lam num_senses mask_i in
  map (fun s => s / (K_sum scores + epsilon)) scores.

End SenseProbabilities.

(** ** The layer object *)

(** Python exceptions the modelled code can raise. *)
Inductive exn : Type :=
| IndexError
| TypeError
| Exception (msg : string).

Inductive outcome (A : Type) : Type :=
| Ok (a : A)
| Raise (e : exn).
Arguments Ok {A} a.
Arguments Raise {A} e.

(** A Keras shape tuple: an entry is an integer or [None]. *)
Definition shape := list (option Z).

Inductive InputSpec : Type :=
| InputSpec_ndim (ndim : nat)
| InputSpec_shape (s : shape).

(** The attributes of the Keras [LSTM] base object that this file reads or
    writes; [lstm_weights] stands for the gate weights, which only the base
    class touches. *)
Record LSTM : Type := mkLSTM {
  output_dim : nat;
  consume_less : string;
  return_sequences : bool;
  go_backwards : bool;
  input_spec : list InputSpec;
  input_dim : Z;
  initial_weights : option (list mat);
  lstm_weights : list mat;
  trainable_weights : list string
}.

(** [OntoAttentionLSTM(LSTM)]: the base object and the attributes the
    subclass adds. *)
Record OntoAttentionLSTM : Type := mkOnto {
  base : LSTM;
  num_senses : nat;
  num_hyps : nat;
  use_attention : bool;
  return_attention : bool;
  input_hyp_projector : mat;
  context_hyp_projector : mat;
  hyp_scorer : vec
}.

Definition set_base (self : OntoAttentionLSTM) (b : LSTM) : OntoAttentionLSTM :=
  mkOnto b (num_senses self) (num_hyps self) (use_attention self)
         (return_attention self) (input_hyp_projector self)
         (context_hyp_projector self) (hyp_scorer self).

Definition set_consume_less (b : LSTM) (v : string) : LSTM :=
  mkLSTM (output_dim b) v (return_sequences b) (go_backwards b) (input_spec b)
         (input_dim b) (initial_weights b) (lstm_weights b)
         (trainable_weights b).

Definition set_input_spec (b : LSTM) (v : list InputSpec) : LSTM :=
  mkLSTM (output_dim b) (consume_less b) (return_sequences b) (go_backwards b)
         v (input_dim b) (initial_weights b) (lstm_weights b)
         (trainable_weights b).

Definition set_input_dim (b : LSTM) (v : Z) : LSTM :=
  mkLSTM (output_dim b) (consume_less b) (return_sequences b) (go_backwards b)
         (input_spec b) v (initial_weights b) (lstm_weights b)
         (trainable_weights b).

Definition set_initial_weights (b : LSTM) (v : option (list mat)) : LSTM :=
  mkLSTM (output_dim b) (consume_less b) (return_sequences b) (go_backwards b)
         (input_spec b) (input_dim b) v (lstm_weights b)
         (trainable_weights b).

Definition set_trainable_weights (b : LSTM) (v : list string) : LSTM :=
  mkLSTM (output_dim b) (consume_less b) (return_sequences b) (go_backwards b)
         (input_spec b) (input_dim b) (initial_weights b) (lstm_weights b) v.

Definition set_return_attention (self : OntoAttentionLSTM) (v : bool)
  : OntoAttentionLSTM :=
  mkOnto (base self) (num_senses self) (num_hyps self) (use_attention self) v
         (input_hyp_projector self) (context_hyp_projector self)
         (hyp_scorer self).

(** ** Construction ([__init__], lines 18-33) *)

(** The keyword arguments the base constructor consumes. *)
Record kwargs : Type := mkKwargs {
  kw_consume_less : string;
  kw_return_sequences : bool;
  kw_go_backwards : bool;
  kw_weights : option (list mat)
}.

(** The call of the base constructor at line 25, with [output_dim] added
    to the keyword arguments: the base constructor stores its keyword
    arguments as attributes. *)
Definition LSTM___init__ (out : nat) (kw : kwargs) : LSTM :=
  mkLSTM out (kw_consume_less kw) (kw_return_sequences kw) (kw_go_backwards kw)
         [InputSpec_ndim 3] 0%Z (kw_weights kw) [] [].

Definition cpu_warning : string :=
  "OntoLSTM does not support consume_less = cpu. Changing it to mem.".

(** The constructor returns the object and the warnings it issued through
    [warnings.warn], in order. *)
Definition __init__ (out n_senses n_hyps : nat) (use_att return_att : bool)
           (kw : kwargs) : OntoAttentionLSTM * list string :=
  let b := LSTM___init__ out kw in
  let b := set_input_spec b [InputSpec_ndim 5] in
  let self := mkOnto b n_senses n_hyps use_att return_att [] [] [] in
  if String.eqb (consume_less b) "cpu"
  then (set_base self (set_consume_less b "mem"), [cpu_warning])
  else (self, []).

(** ** [build] (lines 35-63) *)

Section Build.

(** Collaborators of the Keras base classes: [LSTM.build], the weight
    initialisers [self.inner_init] and [self.init] (an initialiser can
    refuse a shape and raise), and [Layer.set_weights]. *)
Variable LSTM_build : LSTM -> shape -> outcome LSTM.
Variable inner_init : Z -> Z -> outcome mat.
Variable init : Z -> outcome vec.
Variable set_weights : OntoAttentionLSTM -> list mat -> outcome OntoAttentionLSTM.

(** [input_shape[4] - 1]: indexing past the end raises [IndexError],
    subtracting from [None] raises [TypeError]. *)
Definition shape_index_minus_one (input_shape : shape) (i : nat) : outcome Z :=
  match nth_error input_shape i with
  | None => Raise IndexError
  | Some None => Raise TypeError
  | Some (Some d) => Ok (d - 1)%Z
  end.

Definition build (self : OntoAttentionLSTM) (input_shape : shape)
  : outcome OntoAttentionLSTM :=
  let b := set_input_spec (base self) [InputSpec_shape input_shape] in
  match shape_index_minus_one input_shape 4 with
  | Raise e => Raise e
  | Ok d =>
      let b := set_input_dim b d in
      let initial_ontolstm_weights := initial_weights b in
      let b := set_initial_weights b None in
      let lstm_input_shape := firstn 2 input_shape ++ [Some d] in
      match LSTM_build b lstm_input_shape with
      | Raise e => Raise e
      | Ok b =>
          let b := set_input_spec b [InputSpec_shape input_shape] in
          let self := set_base self b in
          let set_initial (self : OntoAttentionLSTM) :=
            match initial_ontolstm_weights with
            | Some w => set_weights self w
            | None => Ok self
            end in
          if use_attention self then
            let out := Z.of_nat (output_dim b) in
            match inner_init d out with
            | Raise e => Raise e
            | Ok input_projector =>
                match inner_init out out with
                | Raise e => Raise e
                | Ok context_projector =>
                    match init out with
                    | Raise e => Raise e
                    | Ok scorer =>
                        set_initial
                          (mkOnto (set_trainable_weights b
                                     (trainable_weights b ++
                                      ["input_hyp_projector";
                                       "context_hyp_projector";
                                       "hyp_scorer"]%string))
                                  (num_senses self) (num_hyps self)
                                  (use_attention self) (return_attention self)
                                  input_projector context_projector scorer)
                    end
                end
            end
          else set_initial self
      end
  end.

End Build.

(** ** Backend operations used by the attention *)

(** [K.dot(x, W)] for one vector [x] and a matrix [W] of [m] columns, stored
    by rows: entry [j] is the sum over [i] of [x[i] * W[i][j]]. *)
Definition K_dot (m : nat) (x : vec) (W : mat) : vec :=
  map (fun j => K_sum (zip_with (fun xi row => xi * nth j row 0) x W)) (seq 0 m).

(** [K.dot(p, v)] for two vectors: the inner product. *)
Definition K_dot_vec (p v : vec) : R := K_sum (zip_with Rmult p v).

Definition K_sigmoid (t : R) : R := 1 / (1 + exp (- t)).

(** [K.softmax] of one row: the normalised exponential. *)
Definition K_softmax (l : list R) : list R :=
  map (fun s => exp s / K_sum (map exp l)) l.

(** [K.batch_flatten] of one sample's (senses, hyps) grid. *)
Definition K_batch_flatten {A : Type} (g : grid A) : list A := concat g.

(** [K.shape] of a (senses, hyps) grid. *)
Definition K_shape {A : Type} (g : grid A) : nat * nat :=
  (length g, length (nth 0 g [])).

(** [K.reshape(flat, (rows, cols))] *)
Fixpoint K_reshape {A : Type} (rows cols : nat) (flat : list A) : grid A :=
  match rows with
  | O => []
  | S r => firstn cols flat :: K_reshape r cols (skipn cols flat)
  end.

(** [K.sum(t, axis=(1, 2))] of a (senses, hyps, d) tensor: entry [i] is the
    sum of component [i] over all slots. *)
Definition K_sum_axes_1_2 (d : nat) (t : tensor3) : vec :=
  map (fun i => K_sum (map (fun e => nth i e 0) (concat t))) (seq 0 d).

(** ** The step ([_step], lines 71-134, and [step], lines 136-141) *)

Section Step.

Variable epsilon : R.

(** [LSTM.step(x, states)] of the base class, which returns [h, [h, c]]. *)
Variable LSTM_step : LSTM -> vec -> list vec -> vec * (vec * vec).

(** Line 79: [x_onto_aware[:, :, :, :-1]] *)
Definition x_synset_embeddings (x_onto_aware : tensor3) : tensor3 :=
  map (map (@removelast R)) x_onto_aware.

(** Lines 99-105: the score of every (sense, hyp) slot. *)
Definition input_hyp_projection (self : OntoAttentionLSTM) (emb : tensor3)
  : tensor3 :=
  map (map (fun e => K_dot (output_dim (base self)) e (input_hyp_projector self)))
      emb.

Definition context_hyp_projection (self : OntoAttentionLSTM) (h_tm1 : vec)
  : vec :=
  K_dot (output_dim (base self)) h_tm1 (context_hyp_projector self).

Definition hyp_projection (self : OntoAttentionLSTM) (emb : tensor3)
           (h_tm1 : vec) : tensor3 :=
  map (map (fun p =>
              map K_sigmoid
                  (zip_with Rplus p (context_hyp_projection self h_tm1))))
      (input_hyp_projection self emb).

Definition hyp_scores (self : OntoAttentionLSTM) (emb : tensor3)
           (h_tm1 : vec) : grid R :=
  map (map (fun p => K_dot_vec p (hyp_scorer self)))
      (hyp_projection self emb h_tm1).

(** [K.switch(K.squeeze(mask_i, axis=-1), g, K.zeros_like(g))] *)
Definition switch_grid (mask_i : option (grid bool)) (g : grid R) : grid R :=
  match mask_i with
  | Some m => zip_with (zip_with (fun b s => K_switch (bit b) s 0)) m g
  | None => g
  end.

(** Lines 96-116: [hyp_attention] in either mode. *)
Definition hyp_attention (self : OntoAttentionLSTM) (emb : tensor3)
           (h_tm1 : vec) (mask_i : option (grid bool)) : grid R :=
  if use_attention self then
    let scores := switch_grid mask_i (hyp_scores self emb h_tm1) in
    let scores_shape := K_shape scores in
    let flattened_scores := K_batch_flatten scores in
    K_reshape (fst scores_shape) (snd scores_shape)
              (K_softmax flattened_scores)
  else
    switch_grid mask_i (map (map (fun _ => 1)) emb).

(** Line 119 *)
Definition hyp_given_sense_attention (att : grid R) : grid R :=
  map (fun row => map (fun a => a / (K_sum row + epsilon)) row) att.

(** Line 121 *)
Definition sense_hyp_attention (self : OntoAttentionLSTM)
           (x_onto_aware : tensor3) (h_tm1 : vec)
           (mask_i : option (grid bool)) : grid R :=
  let emb := x_synset_embeddings x_onto_aware in
  let probs :=
    sense_probabilities epsilon (sense_parameters x_onto_aware)
                        (num_senses self) mask_i in
  zip_with (fun row p => map (fun a => a * p) row)
           (hyp_given_sense_attention (hyp_attention self emb h_tm1 mask_i))
           probs.

(** Lines 123-126: [K.switch(mask_i, x_synset_embeddings, zeros_like_input)] *)
Definition mask_embeddings (mask_i : option (grid bool)) (emb : tensor3)
  : tensor3 :=
  match mask_i with
  | Some m =>
      zip_with (zip_with (fun b e => K_switch (bit b) e (map (fun _ => 0) e)))
               m emb
  | None => emb
  end.

(** Line 128 *)
Definition weighted_product (emb : tensor3) (att : grid R) : tensor3 :=
  zip_with (zip_with (fun e a => map (fun v => v * a) e)) emb att.

(** Lines 79-130: the vector handed to the recurrent cell. *)
Definition lstm_input_t (self : OntoAttentionLSTM) (x_onto_aware : tensor3)
           (h_tm1 : vec) (mask_i : option (grid bool)) : vec :=
  let att := sense_hyp_attention self x_onto_aware h_tm1 mask_i in
  let emb := mask_embeddings mask_i (x_synset_embeddings x_onto_aware) in
  K_sum_axes_1_2 (Z.to_nat (input_dim (base self))) (weighted_product emb att).

(** [_step(x_onto_aware, states)]: [states] is the source's list without its
    last entry, the mask, which is the separate argument [mask_i]
    ([None] when the layer runs without a mask). *)
Definition _step (self : OntoAttentionLSTM) (x_onto_aware : tensor3)
           (states : list vec) (mask_i : option (grid bool))
  : vec * vec * grid R :=
  let h_tm1 := nth 0 states [] in
  let lstm_states := states in
  let att := sense_hyp_attention self x_onto_aware h_tm1 mask_i in
  let '(h, (_, c)) :=
    LSTM_step (base self) (lstm_input_t self x_onto_aware h_tm1 mask_i)
              lstm_states in
  (h, c, att).

(** What a timestep emits. *)
Inductive step_output : Type :=
| Hidden (h : vec)
| Attention (att : grid R).

Definition step (self : OntoAttentionLSTM) (x : tensor3) (states : list vec)
           (mask_i : option (grid bool)) : step_output * list vec :=
  let '(h, c, att) := _step self x states mask_i in
  if return_attention self then (Attention att, [h; c])
  else (Hidden h, [h; c]).

(** ** [compute_mask] (lines 150-158) *)

(** A mask tensor of any rank: its shape and its entries by index. *)
Record mask_tensor : Type := mkMask {
  mask_shape : list nat;
  mask_at : list nat -> bool
}.

(** An integer tensor, the result of summing a mask. *)
Record int_tensor : Type := mkInt {
  int_shape : list nat;
  int_at : list nat -> Z
}.

(** Sum of [f 0 .. f (n-1)] over the integers. *)
Fixpoint sum_upto (f : nat -> Z) (n : nat) : Z :=
  match n with
  | O => 0%Z
  | S k => (sum_upto f k + f k)%Z
  end.

(** [K.sum(mask, axis=(-3, -2))]: negative axes count from the end, so on a
    tensor of rank [r] the summed axes are [r - 3] and [r - 2]; the backend
    raises when the rank is below 3.  The result drops the two axes; its
    entry at an index is the sum over the two dropped positions. *)
Definition K_sum_axes_m3_m2 (t : mask_tensor) : outcome int_tensor :=
  let r := length (mask_shape t) in
  if Nat.ltb r 3 then Raise (Exception "axis out of range")
  else
    let a := (r - 3)%nat in
    let d3 := nth a (mask_shape t) 0%nat in
    let d2 := nth (a + 1) (mask_shape t) 0%nat in
    Ok (mkInt (firstn a (mask_shape t) ++ skipn (a + 2) (mask_shape t))
              (fun idx =>
                 sum_upto
                   (fun i =>
                      sum_upto
                        (fun j =>
                           bit (mask_at t (firstn a idx ++ [i; j] ++ skipn a idx)))
                        d2)
                   d3)).

Definition compute_mask (self : OntoAttentionLSTM) (mask : option mask_tensor)
  : outcome (option int_tensor) :=
  if return_sequences (base self) then
    match mask with
    | Some m =>
        match K_sum_axes_m3_m2 m with
        | Ok t => Ok (Some t)
        | Raise e => Raise e
        end
    | None => Ok None
    end
  else Ok None.

(** ** The scan *)

(** Modelled from the spec: [changing_ndim_rnn] of [keras_extensions] is
    not among the sources.  Section 4.5 of the spec: the (hidden, cell)
    state is carried across the timesteps, taken in order or reversed; at
    each timestep the slice of the input and the slice of the mask are
    handed to the step function, which returns what the timestep emits and
    the new (hidden, cell); a timestep is valid in the output if it has any
    unmasked hypernym slot.  The scan returns, per timestep, the validity
    flag, the emitted output and the carried states.  [constants] are the
    entries [LSTM.get_constants] appends to the states of every call. *)
Definition timestep_valid (mask_i : option (grid bool)) : bool :=
  match mask_i with
  | Some m => existsb (existsb (fun b => b)) m
  | None => true
  end.

Fixpoint scan_timesteps
         (step_function : tensor3 -> list vec -> option (grid bool) ->
                          step_output * list vec)
         (inputs : list (tensor3 * option (grid bool)))
         (states constants : list vec)
  : list (bool * step_output * list vec) :=
  match inputs with
  | [] => []
  | (x, mask_i) :: rest =>
      let '(output, new_states) := step_function x (states ++ constants) mask_i in
      (timestep_valid mask_i, output, new_states)
        :: scan_timesteps step_function rest new_states constants
  end.

Definition mask_slices (n : nat) (mask : option (list (grid bool)))
  : list (option (grid bool)) :=
  match mask with
  | Some m => map Some m
  | None => repeat None n
  end.

Definition changing_ndim_rnn
           (step_function : tensor3 -> list vec -> option (grid bool) ->
                            step_output * list vec)
           (inputs : list tensor3) (initial_states : list vec)
           (backwards : bool) (mask : option (list (grid bool)))
           (constants : list vec)
  : list (bool * step_output * list vec) :=
  let slices := combine inputs (mask_slices (length inputs) mask) in
  scan_timesteps step_function (if backwards then rev slices else slices)
                 initial_states constants.

(** The sequence of carried (hidden, cell) states of a run of the layer. *)
Definition carried_states (self : OntoAttentionLSTM) (inputs : list tensor3)
           (initial_states : list vec) (mask : option (list (grid bool)))
           (constants : list vec) : list (list vec) :=
  map snd (changing_ndim_rnn (step self) inputs initial_states
                             (go_backwards (base self)) mask constants).

End Step.

(** ** Reference formulas and predicates of the statements *)

(** Sum of [f 0 .. f (n-1)]. *)
Fixpoint big_sum (f : nat -> R) (n : nat) : R :=
  match n with
  | O => 0
  | S k => big_sum f k + f k
  end.

(** Sense [k] is fully masked: a mask is present and none of the hyps of
    row [k] is unmasked. *)
Definition sense_fully_masked (mask_i : option (grid bool)) (k : nat) : bool :=
  match mask_i with
  | Some m => forallb negb (nth k m [])
  | None => false
  end.

(** The sense score in the specification's words: lambda * exp(-lambda * k),
    zeroed when sense [k] is fully masked. *)
Definition spec_sense_score (lam : R) (mask_i : option (grid bool)) (k : nat) : R :=
  if sense_fully_masked mask_i k then 0 else lam * exp (- lam * INR k).

(** The sense probability in the specification's words: the score over the
    sum of all scores plus epsilon. *)
Definition spec_sense_probability (epsilon lam : R) (n : nat)
           (mask_i : option (grid bool)) (k : nat) : R :=
  spec_sense_score lam mask_i k / (big_sum (spec_sense_score lam mask_i) n + epsilon).

(** Slot (s, k) is masked: a mask is present and its bit there is 0. *)
Definition slot_masked (mask_i : option (grid bool)) (s k : nat) : bool :=
  match mask_i with
  | Some m => negb (nth k (nth s m []) true)
  | None => false
  end.

(** The learned score of slot (s, k) in the specification's words: project
    the embedding, add the projected hidden state, apply the sigmoid, take
    the dot product with the scoring vector; zero when the slot is masked. *)
Definition spec_cell_score (self : OntoAttentionLSTM) (x_onto_aware : tensor3)
           (h_tm1 : vec) (mask_i : option (grid bool)) (s k : nat) : R :=
  if slot_masked mask_i s k then 0
  else
    let e := removelast (nth k (nth s x_onto_aware []) []) in
    let out := output_dim (base self) in
    K_dot_vec
      (map K_sigmoid
           (zip_with Rplus (K_dot out e (input_hyp_projector self))
                     (K_dot out h_tm1 (context_hyp_projector self))))
      (hyp_scorer self).

(** The learned attention of slot (s, k) in the specification's words: one
    softmax over all [n_senses * n_hyps] slots. *)
Definition spec_hyp_attention (self : OntoAttentionLSTM) (x_onto_aware : tensor3)
           (h_tm1 : vec) (mask_i : option (grid bool)) (n_senses n_hyps : nat)
           (s k : nat) : R :=
  let score := spec_cell_score self x_onto_aware h_tm1 mask_i in
  exp (score s k)
  / big_sum (fun s' => big_sum (fun k' => exp (score s' k')) n_hyps) n_senses.

(** The shape a step input must have for a layer: [n_senses] senses of
    [n_hyps] hyps each. *)
Definition mask_rect (n_senses n_hyps : nat) (mask_i : option (grid bool)) : Prop :=
  match mask_i with
  | Some m => rect n_senses n_hyps m
  | None => True
  end.

(** Sum of all cells of a grid. *)
Definition grid_sum (g : grid R) : R := K_sum (map K_sum g).


(** A fully masked timestep: a mask is present and every bit is 0. *)
Definition fully_masked (mask_i : option (grid bool)) : Prop :=
  match mask_i with
  | Some m => forallb (forallb negb) m = true
  | None => False
  end.

(** Two slot vectors agree where the mask lets them be read: everywhere for
    an unmasked slot; for a masked slot, in length and in the last component
    (the sense prior). *)
Definition slot_agrees (b : bool) (e e' : vec) : Prop :=
  if b then e = e' else length e = length e' /\ last e 0 = last e' 0.

Fixpoint row_agrees (mr : list bool) (r r' : list vec) : Prop :=
  match mr, r, r' with
  | [], [], [] => True
  | b :: mr, e :: r, e' :: r' => slot_agrees b e e' /\ row_agrees mr r r'
  | _, _, _ => False
  end.

(** [x] and [x'] differ only in the embedding components of masked slots. *)
Fixpoint differ_only_masked (m : grid bool) (x x' : tensor3) : Prop :=
  match m, x, x' with
  | [], [], [] => True
  | mr :: m, r :: x, r' :: x' => row_agrees mr r r' /\ differ_only_masked m x x'
  | _, _, _ => False
  end.



(** A mask tensor from its shape and the list of the indices whose bit is
    1. *)
Fixpoint index_eqb (i j : list nat) : bool :=
  match i, j with
  | [], [] => true
  | a :: i, b :: j => Nat.eqb a b && index_eqb i j
  | _, _ => false
  end.

Definition mask_of_ones (shp : list nat) (ones : list (list nat)) : mask_tensor :=
  mkMask shp (fun idx => existsb (index_eqb idx) ones).

(** The value of [K.epsilon()] unless reconfigured: 1e-7. *)
Definition default_epsilon : R := 1 / 10000000.

(** The base-class collaborators at which [build] is evaluated on concrete
    shapes: [LSTM.build] of Keras 1 reads its input dimension at index 2 of
    the rank-3 shape it is given and records the shape; the initialisers
    'zero' return zeros of the requested shape; [set_weights] is not reached
    when no initial weights are supplied. *)
Definition keras_LSTM_build (b : LSTM) (s : shape) : outcome LSTM :=
  match nth_error s 2 with
  | Some (Some d) => Ok (set_input_dim (set_input_spec b [InputSpec_shape s]) d)
  | Some None => Raise TypeError
  | None => Raise IndexError
  end.

Definition zeros_init (rows cols : Z) : outcome mat :=
  Ok (repeat (repeat 0 (Z.to_nat cols)) (Z.to_nat rows)).

Definition zeros_init_vec (n : Z) : outcome vec := Ok (repeat 0 (Z.to_nat n)).

(** The initialiser 'identity' of Keras 1: it accepts square shapes only. *)
Definition identity_init (rows cols : Z) : outcome mat :=
  if Z.eqb rows cols
  then Ok (map (fun i => map (fun j => if Nat.eqb i j then 1 else 0)
                            (seq 0 (Z.to_nat cols)))
               (seq 0 (Z.to_nat rows)))
  else Raise (Exception "Identity matrix initialization can only be used for 2D square matrices.").

Definition keras_set_weights (self : OntoAttentionLSTM) (w : list mat)
  : outcome OntoAttentionLSTM := Ok self.

(** No slot is masked: there is no mask, or every sense has at least one hyp
    and every bit is 1. *)
Definition unmasked (n_senses : nat) (mask_i : option (grid bool)) : Prop :=
  match mask_i with
  | Some m =>
      length m = n_senses /\
      Forall (fun row => row <> [] /\ forallb (fun b => b) row = true) m
  | None => True
  end.

(** ** [get_initial_states] and [get_constants] (lines 65-69, 143-148) *)

(** [x[:, :, 0, 0, :-1]] for one sample: per timestep, the slot of sense 0,
    hyp 0 without its last component. *)
Definition sense_hyp_stripped_x (x : list tensor3) : list vec :=
  map (fun x_t => removelast (nth 0 (nth 0 x_t []) [])) x.

Section BaseClassCalls.

(** [LSTM.get_initial_states] and [LSTM.get_constants] of the base class. *)
Variable LSTM_get_initial_states : LSTM -> list vec -> list vec.
Variable LSTM_get_constants : LSTM -> list vec -> list vec.

Definition get_initial_states (self : OntoAttentionLSTM) (x : list tensor3)
  : list vec :=
  LSTM_get_initial_states (base self) (sense_hyp_stripped_x x).

Definition get_constants (self : OntoAttentionLSTM) (x : list tensor3)
  : list vec :=
  let lstm_constants := LSTM_get_constants (base self) (sense_hyp_stripped_x x) in
  lstm_constants.

End BaseClassCalls.

(** ** [get_config] (lines 192-198) *)

Inductive config_value : Type :=
| CInt (n : Z)
| CBool (b : bool)
| CStr (s : string).

(** A Python dict: its items in insertion order, keys distinct. *)
Definition dict := list (string * config_value).

Fixpoint dict_get (d : dict) (k : string) : option config_value :=
  match d with
  | [] => None
  | (k', v) :: rest => if String.eqb k k' then Some v else dict_get rest k
  end.

(** [d[k] = v]: the value of an existing key is replaced in place, a new key
    is appended. *)
Fixpoint dict_set (d : dict) (k : string) (v : config_value) : dict :=
  match d with
  | [] => [(k, v)]
  | (k', v') :: rest =>
      if String.eqb k k' then (k', v) :: rest else (k', v') :: dict_set rest k v
  end.

(** [dict(items)]: the items are inserted from left to right. *)
Definition dict_of_items (items : list (string * config_value)) : dict :=
  fold_left (fun d kv => dict_set d (fst kv) (snd kv)) items [].

(** [base_config] is what the base class's [get_config] returns. *)
Definition get_config (base_config : dict) (self : OntoAttentionLSTM) : dict :=
  let config :=
    [("num_senses", CInt (Z.of_nat (num_senses self)));
     ("num_hyps", CInt (Z.of_nat (num_hyps self)));
     ("use_attention", CBool (use_attention self));
     ("return_attention", CBool (return_attention self))]%string in
  dict_of_items (base_config ++ config).

(** The four options of the subclass as read back from a configuration. *)
Definition config_options (d : dict) : option (Z * Z * bool * bool) :=
  match dict_get d "num_senses", dict_get d "num_hyps",
        dict_get d "use_attention", dict_get d "return_attention" with
  | Some (CInt s), Some (CInt h), Some (CBool a), Some (CBool r) =>
      Some (s, h, a, r)
  | _, _, _, _ => None
  end.

(** The keys [get_config] writes itself. *)
Definition own_keys : list string :=
  ["num_senses"; "num_hyps"; "use_attention"; "return_attention"]%string.

(** The mask of [n_senses] by [n_hyps] slots in which every bit is 1. *)
Definition all_ones_mask (n_senses n_hyps : nat) : grid bool :=
  repeat (repeat true n_hyps) n_senses.

(** The slots of a step input have [d + 1] components each. *)
Definition slots_of_dim (d : nat) (x : tensor3) : Prop :=
  Forall (Forall (fun slot : vec => length slot = S d)) x.

(** Number of unmasked hyps of sense [s]: all [n_hyps] of them when there
    is no mask. *)
Definition unmasked_hyps (mask_i : option (grid bool)) (n_hyps s : nat) : nat :=
  match mask_i with
  | Some m => count_occ bool_dec (nth s m []) true
  | None => n_hyps
  end.

(** Concrete layers at which the theorems are instantiated: output
    dimension 1, embedding dimension 1, all attention weights zero. *)
Definition example_base : LSTM :=
  mkLSTM 1 "mem" true false [InputSpec_ndim 5] 1%Z None [] [].

Definition example_layer (n_senses n_hyps : nat) (use_att : bool)
  : OntoAttentionLSTM :=
  mkOnto example_base n_senses n_hyps use_att false [[0]] [[0]] [0].

(** * Properties *)



(** ** Lists *)

Lemma zip_with_length {A B C} (f : A -> B -> C) l l' :
  length (zip_with f l l') = Nat.min (length l) (length l').
Proof.
  revert l'; induction l as [|a l IH]; intros [|b l']; simpl; auto.
Qed.

Lemma zip_with_nth {A B C} (f : A -> B -> C) l l' i da db dc :
  (i < length l)%nat -> (i < length l')%nat ->
  nth i (zip_with f l l') dc = f (nth i l da) (nth i l' db).
Proof.
  revert l' i; induction l as [|a l IH]; intros [|b l'] [|i]; simpl;
    intros H1 H2; try lia; auto.
  apply IH; lia.
Qed.

Lemma nth_map_in {A B} (f : A -> B) l i d d' :
  (i < length l)%nat -> nth i (map f l) d = f (nth i l d').
Proof.
  intros Hi.
  rewrite (nth_indep _ d (f d')) by now rewrite length_map.
  apply map_nth.
Qed.

Lemma nth_map_seq {B} (f : nat -> B) n i d :
  (i < n)%nat -> nth i (map f (seq 0 n)) d = f i.
Proof.
  intros Hi.
  rewrite (nth_map_in f _ i d 0%nat) by now rewrite length_seq.
  now rewrite seq_nth.
Qed.

Lemma K_sum_app l l' : K_sum (l ++ l') = K_sum l + K_sum l'.
Proof.
  induction l as [|a l IH]; simpl; [lra | rewrite IH; lra].
Qed.

Lemma K_sum_map_seq (f : nat -> R) n : K_sum (map f (seq 0 n)) = big_sum f n.
Proof.
  induction n as [|n IH]; [reflexivity|].
  rewrite seq_S, map_app, K_sum_app, IH; simpl; lra.
Qed.

Lemma K_sum_nonneg l : Forall (fun a => 0 <= a) l -> 0 <= K_sum l.
Proof.
  induction 1; simpl; lra.
Qed.

Lemma K_sum_int_nonneg (r : list bool) : (0 <= K_sum_int (map bit r))%Z.
Proof.
  induction r as [|b r IH]; [simpl; lia|].
  change (0 <= bit b + K_sum_int (map bit r))%Z.
  destruct b; [change (bit true) with 1%Z | change (bit false) with 0%Z]; lia.
Qed.

Lemma sense_mask_zero (r : list bool) :
  Z.eqb (K_sum_int (map bit r)) 0 = forallb negb r.
Proof.
  induction r as [|b r IH]; [reflexivity|].
  pose proof (K_sum_int_nonneg r) as Hr.
  change (Z.eqb (bit b + K_sum_int (map bit r)) 0 = negb b && forallb negb r).
  destruct b; [change (bit true) with 1%Z | change (bit false) with 0%Z].
  - apply Z.eqb_neq; lia.
  - rewrite Z.add_0_l; exact IH.
Qed.

(** ** Sense probabilities *)

Lemma sense_parameters_canonical (e : vec) (lam : R) (row : list vec) (x : tensor3) :
  sense_parameters (((e ++ [lam]) :: row) :: x) = lam.
Proof.
  unfold sense_parameters; simpl; apply last_last.
Qed.

Lemma raw_sense_scores_seq lam n :
  raw_sense_scores lam n = map (fun k => lam * exp (- lam * INR k)) (seq 0 n).
Proof.
  unfold raw_sense_scores, sense_indices; now rewrite map_map.
Qed.

Lemma sense_scores_spec lam n mask_i :
  match mask_i with Some m => length m = n | None => True end ->
  sense_scores lam n mask_i = map (spec_sense_score lam mask_i) (seq 0 n).
Proof.
  intros Hm; unfold sense_scores; rewrite raw_sense_scores_seq.
  destruct mask_i as [m|]; [|reflexivity].
  apply (nth_ext _ _ 0 0).
  - rewrite zip_with_length; unfold sense_mask;
      rewrite !length_map, length_seq; lia.
  - intros i Hi.
    rewrite zip_with_length in Hi; unfold sense_mask in Hi;
      rewrite !length_map, length_seq in Hi.
    rewrite (zip_with_nth _ _ _ _ 0%Z 0 0)
      by (unfold sense_mask; rewrite ?length_map, ?length_seq; lia).
    rewrite !nth_map_seq by lia.
    unfold sense_mask.
    rewrite (nth_map_in _ m i 0%Z []) by lia.
    unfold spec_sense_score, sense_fully_masked, K_switch.
    now rewrite sense_mask_zero.
Qed.

(** C2: inside the step the sense prior lambda is the last component of
    the slot at sense 0, hyp 0 of the input, and the probability of sense
    [k] is its score (lambda * exp(-lambda * k), zero when the sense is
    fully masked) over the sum of the scores of all senses plus epsilon. *)
Theorem sense_probability_formula (epsilon : R) (self : OntoAttentionLSTM)
        (e : list R) (lam : R) (row : list (list R)) (rest : tensor3)
        (mask_i : option (grid bool)) (k : nat)
        (Hshape : match mask_i with
                  | Some m => length m = num_senses self
                  | None => True
                  end)
        (Hk : (k < num_senses self)%nat) :
  sense_parameters (((e ++ [lam]) :: row) :: rest) = lam
  /\ nth k (sense_probabilities epsilon
              (sense_parameters (((e ++ [lam]) :: row) :: rest))
              (num_senses self) mask_i) 0
     = spec_sense_probability epsilon lam (num_senses self) mask_i k.
Proof.
  assert (Hlam : sense_parameters (((e ++ [lam]) :: row) :: rest) = lam)
    by apply sense_parameters_canonical.
  split; [exact Hlam|]. rewrite Hlam.
  unfold sense_probabilities, spec_sense_probability.
  rewrite (sense_scores_spec _ _ _ Hshape).
  rewrite K_sum_map_seq, map_map.
  set (D := big_sum _ _ + epsilon).
  now rewrite nth_map_seq by lia.
Qed.

Lemma sense_probability_formula_witness :
  sense_parameters ((([3] ++ [2]) :: []) :: [[[4; 2]]]) = 2
  /\ nth 0 (sense_probabilities default_epsilon
              (sense_parameters ((([3] ++ [2]) :: []) :: [[[4; 2]]]))
              (num_senses (example_layer 2 1 false))
              (Some [[true]; [false]])) 0
     = spec_sense_probability default_epsilon 2
         (num_senses (example_layer 2 1 false)) (Some [[true]; [false]]) 0.
Proof.
  apply (sense_probability_formula default_epsilon (example_layer 2 1 false)
           [3] 2 [] [[[4; 2]]] (Some [[true]; [false]]) 0%nat);
    [reflexivity | simpl; lia].
Defined.

Lemma unmasked_not_fully_masked n mask_i k :
  unmasked n mask_i -> (k < n)%nat -> sense_fully_masked mask_i k = false.
Proof.
  destruct mask_i as [m|]; simpl; [|reflexivity].
  intros [Hlen Hall] Hk.
  rewrite Forall_forall in Hall.
  destruct (Hall (nth k m [])) as [Hne Htrue].
  { apply nth_In; lia. }
  destruct (nth k m []) as [|b row]; [congruence|].
  simpl in *. apply andb_prop in Htrue as [-> _]. reflexivity.
Qed.

Lemma unmasked_length n mask_i :
  unmasked n mask_i ->
  match mask_i with Some m => length m = n | None => True end.
Proof.
  destruct mask_i; simpl; tauto.
Qed.

Lemma big_sum_pos (f : nat -> R) n :
  (forall k, (k < n)%nat -> 0 < f k) -> (0 < n)%nat -> 0 < big_sum f n.
Proof.
  induction n as [|n IH]; intros Hf Hn; [lia|].
  simpl. destruct n as [|n].
  - simpl. specialize (Hf 0%nat ltac:(lia)). lra.
  - specialize (IH (fun k Hk => Hf k ltac:(lia)) ltac:(lia)).
    specialize (Hf (S n) ltac:(lia)). lra.
Qed.

Lemma exp_score_pos lam k : 0 < lam -> 0 < lam * exp (- lam * INR k).
Proof.
  intros Hl. apply Rmult_lt_0_compat; [assumption | apply exp_pos].
Qed.

Lemma exp_score_decreasing lam i j :
  0 < lam -> (i < j)%nat ->
  lam * exp (- lam * INR j) < lam * exp (- lam * INR i).
Proof.
  intros Hl Hij.
  apply Rmult_lt_compat_l; [assumption|].
  apply exp_increasing.
  apply lt_INR in Hij. nra.
Qed.

(** Over the reals the probabilities of an unmasked input decrease
    strictly for every lambda > 0. *)
Lemma real_sense_probabilities_decreasing (epsilon lam : R) (n : nat)
      (mask_i : option (grid bool)) :
  0 <= epsilon -> 0 < lam -> unmasked n mask_i ->
  forall i j, (i < j < n)%nat ->
    nth j (sense_probabilities epsilon lam n mask_i) 0
    < nth i (sense_probabilities epsilon lam n mask_i) 0.
Proof.
  intros Heps Hlam Hmask.
  assert (Hnth : forall k, (k < n)%nat ->
            nth k (sense_probabilities epsilon lam n mask_i) 0
            = lam * exp (- lam * INR k)
              / (big_sum (spec_sense_score lam mask_i) n + epsilon)).
  { intros k Hk. unfold sense_probabilities.
    rewrite (sense_scores_spec _ _ _ (unmasked_length _ _ Hmask)).
    rewrite K_sum_map_seq, map_map, nth_map_seq by lia.
    unfold spec_sense_score at 1.
    now rewrite (unmasked_not_fully_masked _ _ _ Hmask Hk). }
  intros i j Hij.
  rewrite !Hnth by lia.
  assert (HD : 0 < big_sum (spec_sense_score lam mask_i) n + epsilon).
  { assert (0 < big_sum (spec_sense_score lam mask_i) n); [|lra].
    apply big_sum_pos; [|lia].
    intros k Hk. unfold spec_sense_score.
    rewrite (unmasked_not_fully_masked _ _ _ Hmask Hk).
    now apply exp_score_pos. }
  apply Rmult_lt_compat_r; [now apply Rinv_0_lt_compat|].
  apply exp_score_decreasing; [assumption | lia].
Qed.

(** C7: for every lambda > 0 and no masked slot, the sense probabilities do
    not increase with the sense index; for lambda = 1 and three senses they
    decrease strictly. *)
Theorem sense_probabilities_monotone (epsilon lam : R) (n : nat)
        (mask_i mask3 : option (grid bool))
        (Heps : 0 <= epsilon) (Hlam : 0 < lam)
        (Hmask : unmasked n mask_i) (Hmask3 : unmasked 3 mask3) :
  (forall i j, (i <= j < n)%nat ->
     nth j (sense_probabilities epsilon lam n mask_i) 0
     <= nth i (sense_probabilities epsilon lam n mask_i) 0)
  /\ nth 1 (sense_probabilities epsilon 1 3 mask3) 0
     < nth 0 (sense_probabilities epsilon 1 3 mask3) 0
  /\ nth 2 (sense_probabilities epsilon 1 3 mask3) 0
     < nth 1 (sense_probabilities epsilon 1 3 mask3) 0.
Proof.
  split; [|split].
  - intros i j Hij.
    destruct (Nat.eq_dec i j) as [->|Hne]; [apply Rle_refl|].
    apply Rlt_le.
    apply (real_sense_probabilities_decreasing epsilon lam n mask_i Heps Hlam
                                               Hmask); lia.
  - apply (real_sense_probabilities_decreasing epsilon 1 3 mask3 Heps Rlt_0_1
                                               Hmask3); lia.
  - apply (real_sense_probabilities_decreasing epsilon 1 3 mask3 Heps Rlt_0_1
                                               Hmask3); lia.
Qed.

Lemma sense_probabilities_monotone_witness :
  (forall i j, (i <= j < 2)%nat ->
     nth j (sense_probabilities default_epsilon 2 2 (Some [[true]; [true]])) 0
     <= nth i (sense_probabilities default_epsilon 2 2
                                   (Some [[true]; [true]])) 0)
  /\ nth 1 (sense_probabilities default_epsilon 1 3 None) 0
     < nth 0 (sense_probabilities default_epsilon 1 3 None) 0
  /\ nth 2 (sense_probabilities default_epsilon 1 3 None) 0
     < nth 1 (sense_probabilities default_epsilon 1 3 None) 0.
Proof.
  assert (Heps : 0 <= default_epsilon) by (unfold default_epsilon; lra).
  assert (Hlam : 0 < 2) by lra.
  assert (Hmask : unmasked 2 (Some [[true]; [true]])).
  { split; [reflexivity|].
    repeat constructor; discriminate. }
  exact (sense_probabilities_monotone default_epsilon 2 2
           (Some [[true]; [true]]) None Heps Hlam Hmask I).
Defined.

(** ** Construction *)

(** C8: constructing the layer with [consume_less = "cpu"] raises nothing:
    it yields exactly the object constructed with [consume_less = "mem"],
    whose mode is "mem", together with one warning; the "mem" construction
    itself warns of nothing. *)
Theorem init_cpu_downgraded (out n_senses n_hyps : nat) (use_att return_att : bool)
        (rs gb : bool) (w : option (list mat)) :
  __init__ out n_senses n_hyps use_att return_att (mkKwargs "cpu" rs gb w)
  = (fst (__init__ out n_senses n_hyps use_att return_att
                   (mkKwargs "mem" rs gb w)),
     [cpu_warning])
  /\ snd (__init__ out n_senses n_hyps use_att return_att
                   (mkKwargs "mem" rs gb w)) = []
  /\ consume_less
       (base (fst (__init__ out n_senses n_hyps use_att return_att
                            (mkKwargs "cpu" rs gb w)))) = "mem"%string.
Proof.
  repeat split.
Qed.

(** ** [build] *)

(** C6, as the code has it: [build] compares nothing with [num_senses] or
    [num_hyps].  On any input shape whose entry 4 is an integer [d], it
    succeeds whenever the base class's build succeeds on the first two
    entries followed by [d - 1], the initialisers of the three attention
    parameters accept their shapes (learned mode) and no initial weights
    were supplied; the built layer keeps its [num_senses] and [num_hyps]
    and records the input shape it was given. *)
Theorem build_ignores_senses_and_hyps
        (LSTM_build : LSTM -> shape -> outcome LSTM)
        (inner_init : Z -> Z -> outcome mat) (init : Z -> outcome vec)
        (set_weights : OntoAttentionLSTM -> list mat -> outcome OntoAttentionLSTM)
        (self : OntoAttentionLSTM) (input_shape : shape) (d : Z) (b' : LSTM)
        (Hdim : nth_error input_shape 4 = Some (Some d))
        (Hweights : initial_weights (base self) = None)
        (Hbase : LSTM_build
                   (set_initial_weights
                      (set_input_dim
                         (set_input_spec (base self) [InputSpec_shape input_shape])
                         (d - 1)) None)
                   (firstn 2 input_shape ++ [Some (d - 1)%Z]) = Ok b')
        (Hinit : use_attention self = true ->
                 exists input_projector context_projector scorer,
                   inner_init (d - 1)%Z (Z.of_nat (output_dim b'))
                   = Ok input_projector
                   /\ inner_init (Z.of_nat (output_dim b'))
                                 (Z.of_nat (output_dim b'))
                      = Ok context_projector
                   /\ init (Z.of_nat (output_dim b')) = Ok scorer) :
  exists self',
    build LSTM_build inner_init init set_weights self input_shape = Ok self'
    /\ num_senses self' = num_senses self
    /\ num_hyps self' = num_hyps self
    /\ input_spec (base self') = [InputSpec_shape input_shape].
Proof.
  unfold build, shape_index_minus_one.
  rewrite Hdim. cbv zeta.
  rewrite Hbase.
  change (initial_weights
            (set_input_dim
               (set_input_spec (base self) [InputSpec_shape input_shape])
               (d - 1)))
    with (initial_weights (base self)).
  rewrite Hweights.
  change (use_attention
            (set_base self (set_input_spec b' [InputSpec_shape input_shape])))
    with (use_attention self).
  change (output_dim (set_input_spec b' [InputSpec_shape input_shape]))
    with (output_dim b').
  destruct (use_attention self) eqn:Hatt.
  - destruct (Hinit eq_refl) as (P & C & v & HP & HC & Hv).
    rewrite HP, HC, Hv. eexists; repeat split.
  - eexists; repeat split.
Qed.

Lemma build_ignores_senses_and_hyps_witness :
  exists self',
    build keras_LSTM_build zeros_init zeros_init_vec keras_set_weights
          (example_layer 2 2 true) [Some 1; Some 2; Some 2; Some 2; Some 2]%Z
    = Ok self'
    /\ num_senses self' = 2%nat
    /\ num_hyps self' = 2%nat
    /\ input_spec (base self')
       = [InputSpec_shape [Some 1; Some 2; Some 2; Some 2; Some 2]%Z].
Proof.
  apply (build_ignores_senses_and_hyps keras_LSTM_build zeros_init
           zeros_init_vec keras_set_weights (example_layer 2 2 true)
           [Some 1; Some 2; Some 2; Some 2; Some 2]%Z 2%Z
           (set_input_dim
              (set_input_spec
                 (set_initial_weights
                    (set_input_dim
                       (set_input_spec example_base
                          [InputSpec_shape
                             [Some 1; Some 2; Some 2; Some 2; Some 2]%Z])
                       1%Z) None)
                 [InputSpec_shape [Some 1; Some 2; Some 1]%Z]) 1%Z));
    try reflexivity.
  intros _. do 3 eexists. repeat split.
Defined.

(** C6, refuted as stated: a layer configured with 2 senses and 2 hyps is
    built without any error on an input shape with 5 senses and 3 hyps. *)
Lemma build_accepts_mismatched_shape :
  exists self',
    build keras_LSTM_build zeros_init zeros_init_vec keras_set_weights
          (example_layer 2 2 false) [Some 1; Some 2; Some 5; Some 3; Some 4]%Z
    = Ok self'
    /\ num_senses self' = 2%nat /\ num_hyps self' = 2%nat
    /\ input_spec (base self')
       = [InputSpec_shape [Some 1; Some 2; Some 5; Some 3; Some 4]%Z].
Proof.
  eexists; repeat split.
Qed.

(** After a successful base build, [build] still raises in learned mode
    when an initialiser refuses its shape: 'identity' on the projection of
    an embedding of 3 components to an output of 1. *)
Lemma build_initialiser_error :
  build keras_LSTM_build identity_init zeros_init_vec keras_set_weights
        (example_layer 2 2 true) [Some 1; Some 2; Some 2; Some 2; Some 4]%Z
  = Raise (Exception "Identity matrix initialization can only be used for 2D square matrices.").
Proof. reflexivity. Qed.

(** ** [compute_mask] *)




(** On a mask of rank 5 the summed axes are the third and the fourth. *)
Lemma K_sum_axes_rank5 (m : mask_tensor) (B T S H L : nat) :
  mask_shape m = [B; T; S; H; L] ->
  exists out,
    K_sum_axes_m3_m2 m = Ok out
    /\ int_shape out = [B; T; L]
    /\ forall b t e,
         int_at out [b; t; e]
         = sum_upto (fun s => sum_upto (fun h => bit (mask_at m [b; t; s; h; e]))
                                       H) S.
Proof.
  intros Hshape. unfold K_sum_axes_m3_m2. rewrite Hshape. simpl.
  eexists; repeat split.
Qed.

(** On a mask of rank 4, of axes (samples, timesteps, senses, hyps), the
    same two axes are the timesteps and the senses: the result has one
    entry per (sample, hyp). *)
Lemma K_sum_axes_rank4 (m : mask_tensor) (B T S H : nat) :
  mask_shape m = [B; T; S; H] ->
  exists out,
    K_sum_axes_m3_m2 m = Ok out
    /\ int_shape out = [B; H]
    /\ forall b h,
         int_at out [b; h]
         = sum_upto (fun t => sum_upto (fun s => bit (mask_at m [b; t; s; h]))
                                       S) T.
Proof.
  intros Hshape. unfold K_sum_axes_m3_m2. rewrite Hshape. simpl.
  eexists; repeat split.
Qed.










(** On a mask of rank 4 the two summed axes are not the senses and the
    hyps: with two timesteps whose single sense has its first hyp unmasked,
    the output mask has one entry per hyp, 2 and 0. *)
Lemma compute_mask_rank4_example :
  exists out,
    compute_mask (example_layer 1 2 false)
                 (Some (mask_of_ones [1; 2; 1; 2]%nat
                                     [[0; 0; 0; 0]; [0; 1; 0; 0]]%nat))
    = Ok (Some out)
    /\ int_shape out = [1; 2]%nat
    /\ int_at out [0; 0]%nat = 2%Z /\ int_at out [0; 1]%nat = 0%Z.
Proof.
  eexists. repeat split.
Qed.

(** ** The [return_attention] flag *)

Section ReturnAttention.

Variable epsilon : R.
Variable LSTM_step : LSTM -> vec -> list vec -> vec * (vec * vec).

Lemma _step_return_attention self v x states mask_i :
  _step epsilon LSTM_step (set_return_attention self v) x states mask_i
  = _step epsilon LSTM_step self x states mask_i.
Proof. reflexivity. Qed.

Lemma step_emits self x states mask_i :
  step epsilon LSTM_step self x states mask_i
  = let '(h, c, att) := _step epsilon LSTM_step self x states mask_i in
    ((if return_attention self then Attention att else Hidden h), [h; c]).
Proof.
  unfold step.
  destruct (_step epsilon LSTM_step self x states mask_i) as [[h c] att].
  now destruct (return_attention self).
Qed.

Lemma step_states_return_attention self v v' x states mask_i :
  snd (step epsilon LSTM_step (set_return_attention self v) x states mask_i)
  = snd (step epsilon LSTM_step (set_return_attention self v') x states mask_i).
Proof.
  rewrite !step_emits, !_step_return_attention.
  now destruct (_step epsilon LSTM_step self x states mask_i) as [[h c] att].
Qed.

Lemma scan_states_return_attention self v v' inputs states constants :
  map snd (scan_timesteps (step epsilon LSTM_step (set_return_attention self v))
                          inputs states constants)
  = map snd (scan_timesteps (step epsilon LSTM_step (set_return_attention self v'))
                            inputs states constants).
Proof.
  revert states; induction inputs as [|[x mask_i] rest IH]; intros states;
    [reflexivity|].
  simpl.
  pose proof (step_states_return_attention self v v' x (states ++ constants) mask_i)
    as Hs.
  destruct (step epsilon LSTM_step (set_return_attention self v) x
                 (states ++ constants) mask_i) as [o1 s1].
  destruct (step epsilon LSTM_step (set_return_attention self v') x
                 (states ++ constants) mask_i) as [o2 s2].
  simpl in Hs; subst s2. simpl. now rewrite IH.
Qed.

End ReturnAttention.

(** C10: [return_attention] selects what a timestep emits, the joint
    attention grid or the hidden vector, next to the same new states
    [h; c]; over a whole run the sequence of carried (hidden, cell) states
    is the same with the flag set and unset. *)
Theorem return_attention_frame (epsilon : R)
        (LSTM_step : LSTM -> vec -> list vec -> vec * (vec * vec))
        (self : OntoAttentionLSTM) (inputs : list tensor3)
        (initial_states : list vec) (mask : option (list (grid bool)))
        (constants : list vec) :
  (forall x states mask_i,
     let '(h, c, att) := _step epsilon LSTM_step self x states mask_i in
     step epsilon LSTM_step (set_return_attention self true) x states mask_i
     = (Attention att, [h; c])
     /\ step epsilon LSTM_step (set_return_attention self false) x states mask_i
        = (Hidden h, [h; c]))
  /\ carried_states epsilon LSTM_step (set_return_attention self true)
                    inputs initial_states mask constants
     = carried_states epsilon LSTM_step (set_return_attention self false)
                      inputs initial_states mask constants.
Proof.
  split.
  - intros x states mask_i.
    pose proof (step_emits epsilon LSTM_step (set_return_attention self true)
                           x states mask_i) as Ht.
    pose proof (step_emits epsilon LSTM_step (set_return_attention self false)
                           x states mask_i) as Hf.
    rewrite _step_return_attention in Ht, Hf.
    destruct (_step epsilon LSTM_step self x states mask_i) as [[h c] att].
    now split.
  - unfold carried_states, changing_ndim_rnn.
    change (go_backwards (base (set_return_attention self true)))
      with (go_backwards (base self)).
    change (go_backwards (base (set_return_attention self false)))
      with (go_backwards (base self)).
    apply scan_states_return_attention.
Qed.

(** ** Grids *)

Lemma tabulate_list {A} (l : list A) n d :
  length l = n -> l = map (fun i => nth i l d) (seq 0 n).
Proof.
  intros <-. apply (nth_ext _ _ d d).
  - now rewrite length_map, length_seq.
  - intros i Hi. now rewrite nth_map_seq.
Qed.

Lemma zip_with_tabulate {A B C} (f : A -> B -> C) l l' n da db :
  length l = n -> length l' = n ->
  zip_with f l l' = map (fun i => f (nth i l da) (nth i l' db)) (seq 0 n).
Proof.
  intros Hl Hl'. apply (nth_ext _ _ (f da db) (f da db)).
  - rewrite zip_with_length, length_map, length_seq. lia.
  - intros i Hi. rewrite zip_with_length in Hi.
    rewrite (zip_with_nth _ _ _ _ da db) by lia.
    rewrite nth_map_seq by lia. reflexivity.
Qed.

Lemma rect_nth_length {A} n m (g : grid A) s :
  rect n m g -> (s < n)%nat -> length (nth s g []) = m.
Proof.
  intros [Hlen Hall] Hs. rewrite Forall_forall in Hall.
  apply Hall, nth_In. lia.
Qed.

Lemma rect_map {A B} (f : A -> B) n m (g : grid A) :
  rect n m g -> rect n m (map (map f) g).
Proof.
  intros [Hlen Hall]. split; [now rewrite length_map|].
  rewrite Forall_map. eapply Forall_impl; [|exact Hall].
  intros row Hrow. now rewrite length_map.
Qed.

Lemma rect_tabulate {A} (f : nat -> nat -> A) n m :
  rect n m (map (fun s => map (f s) (seq 0 m)) (seq 0 n)).
Proof.
  split; [now rewrite length_map, length_seq|].
  rewrite Forall_map, Forall_forall. intros s _.
  now rewrite length_map, length_seq.
Qed.

Lemma map_grid_nth {A B} (f : A -> B) n m (g : grid A) s k d d' :
  rect n m g -> (s < n)%nat -> (k < m)%nat ->
  nth k (nth s (map (map f) g) []) d = f (nth k (nth s g []) d').
Proof.
  intros Hg Hs Hk.
  rewrite (nth_map_in (map f) g s [] []) by (destruct Hg; lia).
  apply nth_map_in. now rewrite (rect_nth_length n m g s).
Qed.

Lemma zip_with_grid_tabulate {A B C} (f : A -> B -> C) n m
      (g : grid A) (g' : grid B) da db :
  rect n m g -> rect n m g' ->
  zip_with (zip_with f) g g'
  = map (fun s =>
           map (fun k => f (nth k (nth s g []) da) (nth k (nth s g' []) db))
               (seq 0 m))
        (seq 0 n).
Proof.
  intros Hg Hg'.
  rewrite (zip_with_tabulate _ g g' n [] []) by (destruct Hg, Hg'; assumption).
  apply map_ext_in. intros s Hs. apply in_seq in Hs.
  apply zip_with_tabulate; apply (rect_nth_length n m); assumption || lia.
Qed.

Lemma map_grid_tabulate {A B} (f : A -> B) n m (g : grid A) d :
  rect n m g ->
  map (map f) g
  = map (fun s => map (fun k => f (nth k (nth s g []) d)) (seq 0 m)) (seq 0 n).
Proof.
  intros Hg.
  rewrite (tabulate_list g n [] (proj1 Hg)) at 1.
  rewrite map_map. apply map_ext_in. intros s Hs. apply in_seq in Hs.
  rewrite (tabulate_list (nth s g []) m d) at 1
    by (apply (rect_nth_length n m); assumption || lia).
  now rewrite map_map.
Qed.

Lemma K_sum_concat (g : grid R) : K_sum (concat g) = grid_sum g.
Proof.
  unfold grid_sum. induction g as [|row g IH]; [reflexivity|].
  simpl concat. rewrite K_sum_app, IH. reflexivity.
Qed.

Lemma K_reshape_concat {A} n m (g : grid A) :
  rect n m g -> K_reshape n m (concat g) = g.
Proof.
  revert n; induction g as [|row g IH]; intros n [Hlen Hall].
  - simpl in Hlen; subst n. reflexivity.
  - simpl in Hlen; subst n. inversion Hall as [|? ? Hrow Hrest]; subst.
    simpl. rewrite firstn_app, Nat.sub_diag, firstn_all. simpl.
    rewrite app_nil_r, skipn_app, Nat.sub_diag, skipn_all. simpl.
    f_equal. apply IH. now split.
Qed.

Lemma grid_sum_tabulate (f : nat -> nat -> R) n m :
  grid_sum (map (fun s => map (f s) (seq 0 m)) (seq 0 n))
  = big_sum (fun s => big_sum (f s) m) n.
Proof.
  unfold grid_sum. rewrite map_map.
  rewrite (map_ext _ (fun s => big_sum (f s) m))
    by (intros s; apply K_sum_map_seq).
  apply K_sum_map_seq.
Qed.

(** ** Learned attention *)

Lemma switch_bit {A} (b : bool) (a a' : A) :
  K_switch (bit b) a a' = if b then a else a'.
Proof. now destruct b. Qed.

Lemma grid_tabulate {A} n m (g : grid A) d :
  rect n m g ->
  g = map (fun s => map (fun k => nth k (nth s g []) d) (seq 0 m)) (seq 0 n).
Proof.
  intros Hg.
  rewrite (tabulate_list g n [] (proj1 Hg)) at 1.
  apply map_ext_in. intros s Hs. apply in_seq in Hs.
  apply tabulate_list, (rect_nth_length n m); assumption || lia.
Qed.

Lemma hyp_scores_rect self x h_tm1 n m :
  rect n m x -> rect n m (hyp_scores self (x_synset_embeddings x) h_tm1).
Proof.
  intros Hx. unfold hyp_scores, hyp_projection, input_hyp_projection,
    x_synset_embeddings.
  repeat apply rect_map. exact Hx.
Qed.

Lemma hyp_scores_nth self x h_tm1 n m s k :
  rect n m x -> (s < n)%nat -> (k < m)%nat ->
  nth k (nth s (hyp_scores self (x_synset_embeddings x) h_tm1) []) 0
  = spec_cell_score self x h_tm1 None s k.
Proof.
  intros Hx Hs Hk.
  unfold hyp_scores, hyp_projection, input_hyp_projection, x_synset_embeddings.
  set (f3 := fun p : vec => K_dot_vec p (hyp_scorer self)).
  set (f2 := fun p : list R => map K_sigmoid (zip_with Rplus p _)).
  set (f1 := fun e : vec => K_dot _ e _).
  rewrite (map_grid_nth f3 n m _ s k 0 [])
    by (repeat apply rect_map; assumption).
  rewrite (map_grid_nth f2 n m _ s k [] [])
    by (repeat apply rect_map; assumption).
  rewrite (map_grid_nth f1 n m _ s k [] [])
    by (repeat apply rect_map; assumption).
  rewrite (map_grid_nth (@removelast R) n m _ s k [] []) by assumption.
  reflexivity.
Qed.

Lemma switched_scores_spec self x h_tm1 mask_i n m :
  rect n m x -> mask_rect n m mask_i ->
  switch_grid mask_i (hyp_scores self (x_synset_embeddings x) h_tm1)
  = map (fun s => map (spec_cell_score self x h_tm1 mask_i s) (seq 0 m))
        (seq 0 n).
Proof.
  intros Hx Hm.
  pose proof (hyp_scores_rect self x h_tm1 n m Hx) as Hrect.
  destruct mask_i as [mk|]; simpl switch_grid.
  - rewrite (zip_with_grid_tabulate _ n m mk _ true 0 Hm Hrect).
    apply map_ext_in. intros s Hs. apply in_seq in Hs.
    apply map_ext_in. intros k Hk. apply in_seq in Hk.
    rewrite switch_bit, (hyp_scores_nth self x h_tm1 n m) by (assumption || lia).
    unfold spec_cell_score, slot_masked.
    destruct (nth k (nth s mk []) true); reflexivity.
  - rewrite (grid_tabulate n m _ 0 Hrect) at 1.
    apply map_ext_in. intros s Hs. apply in_seq in Hs.
    apply map_ext_in. intros k Hk. apply in_seq in Hk.
    apply (hyp_scores_nth self x h_tm1 n m); assumption || lia.
Qed.

Lemma joint_softmax_tabulate (f : nat -> nat -> R) n m :
  let scores := map (fun s => map (f s) (seq 0 m)) (seq 0 n) in
  K_reshape (fst (K_shape scores)) (snd (K_shape scores))
            (K_softmax (K_batch_flatten scores))
  = map (fun s =>
           map (fun k =>
                  exp (f s k)
                  / big_sum (fun s' => big_sum (fun k' => exp (f s' k')) m) n)
               (seq 0 m))
        (seq 0 n).
Proof.
  intros scores.
  assert (Hsum : K_sum (map exp (K_batch_flatten scores))
                 = big_sum (fun s' => big_sum (fun k' => exp (f s' k')) m) n).
  { unfold K_batch_flatten, scores.
    rewrite concat_map, K_sum_concat, map_map.
    rewrite (map_ext _ _ (fun s => map_map (f s) exp (seq 0 m))).
    apply (grid_sum_tabulate (fun s k => exp (f s k))). }
  unfold K_softmax. rewrite Hsum.
  set (Z := big_sum _ n).
  unfold K_batch_flatten. rewrite concat_map.
  assert (Hmap : map (map (fun s => exp s / Z)) scores
                 = map (fun s => map (fun k => exp (f s k) / Z) (seq 0 m))
                       (seq 0 n)).
  { unfold scores. rewrite map_map.
    apply map_ext. intros s. now rewrite map_map. }
  rewrite Hmap.
  destruct n as [|n]; [reflexivity|].
  assert (Hshape : K_shape scores = (S n, m)).
  { unfold K_shape, scores. rewrite length_map, length_seq.
    rewrite nth_map_seq by lia. now rewrite length_map, length_seq. }
  rewrite Hshape. simpl fst. simpl snd.
  apply K_reshape_concat, (rect_tabulate (fun s k => exp (f s k) / Z)).
Qed.

(** C3: in learned mode the hypernym attention grid is, slot by slot, the
    exponential of the slot's score (projected embedding plus projected
    hidden state, through the sigmoid, dotted with the scoring vector; zero
    for a masked slot) over the sum of the exponentials of ALL
    [num_senses * num_hyps] slots: one softmax over the flattened grid,
    reshaped to (sense, hyp). *)
Theorem learned_attention_joint_softmax (self : OntoAttentionLSTM)
        (x_onto_aware : tensor3) (h_tm1 : vec) (mask_i : option (grid bool))
        (Hmode : use_attention self = true)
        (Hx : rect (num_senses self) (num_hyps self) x_onto_aware)
        (Hmask : mask_rect (num_senses self) (num_hyps self) mask_i) :
  hyp_attention self (x_synset_embeddings x_onto_aware) h_tm1 mask_i
  = map (fun s =>
           map (fun k =>
                  spec_hyp_attention self x_onto_aware h_tm1 mask_i
                                     (num_senses self) (num_hyps self) s k)
               (seq 0 (num_hyps self)))
        (seq 0 (num_senses self)).
Proof.
  unfold hyp_attention. rewrite Hmode.
  rewrite (switched_scores_spec self x_onto_aware h_tm1 mask_i _ _ Hx Hmask).
  apply (joint_softmax_tabulate (spec_cell_score self x_onto_aware h_tm1 mask_i)).
Qed.

Lemma learned_attention_joint_softmax_witness :
  hyp_attention (example_layer 1 2 true)
                (x_synset_embeddings [[[3; 1]; [4; 1]]]) [0]
                (Some [[true; false]])
  = map (fun s =>
           map (fun k =>
                  spec_hyp_attention (example_layer 1 2 true)
                    [[[3; 1]; [4; 1]]] [0] (Some [[true; false]])
                    (num_senses (example_layer 1 2 true))
                    (num_hyps (example_layer 1 2 true)) s k)
               (seq 0 (num_hyps (example_layer 1 2 true))))
        (seq 0 (num_senses (example_layer 1 2 true))).
Proof.
  apply (learned_attention_joint_softmax (example_layer 1 2 true)
           [[[3; 1]; [4; 1]]] [0] (Some [[true; false]])).
  - reflexivity.
  - split; [reflexivity | repeat constructor].
  - split; [reflexivity | repeat constructor].
Defined.

(** ** One sense, one hyp *)

Lemma K_sum_axes_single d (e : list R) :
  length e = d -> K_sum_axes_1_2 d [[e]] = e.
Proof.
  intros Hd. unfold K_sum_axes_1_2. simpl concat.
  symmetry. etransitivity; [apply (tabulate_list e d 0 Hd)|].
  apply map_ext. intros i. simpl. lra.
Qed.

Lemma single_sense_probability epsilon lam mask_i :
  mask_i = None \/ mask_i = Some [[true]] ->
  sense_probabilities epsilon lam 1 mask_i = [lam / (lam + epsilon)].
Proof.
  assert (Hraw : raw_sense_scores lam 1 = [lam]).
  { unfold raw_sense_scores, sense_indices. simpl.
    now rewrite Rmult_0_r, exp_0, Rmult_1_r. }
  intros [-> | ->]; unfold sense_probabilities, sense_scores; rewrite Hraw;
    simpl; now rewrite Rplus_0_r.
Qed.

Lemma single_slot_hyp_attention self (e : list R) h_tm1 mask_i :
  mask_i = None \/ mask_i = Some [[true]] ->
  hyp_attention self [[e]] h_tm1 mask_i = [[1]].
Proof.
  intros Hm. unfold hyp_attention.
  destruct (use_attention self).
  - assert (Hs : exists s,
               switch_grid mask_i (hyp_scores self [[e]] h_tm1) = [[s]]).
    { destruct Hm as [-> | ->]; eexists; reflexivity. }
    destruct Hs as [s ->]. simpl.
    rewrite Rplus_0_r. unfold Rdiv. rewrite Rinv_r; [reflexivity|].
    apply Rgt_not_eq, exp_pos.
  - destruct Hm as [-> | ->]; reflexivity.
Qed.

Lemma single_slot_attention epsilon self (e : list R) lam h_tm1 mask_i :
  num_senses self = 1%nat ->
  mask_i = None \/ mask_i = Some [[true]] ->
  sense_hyp_attention epsilon self [[e ++ [lam]]] h_tm1 mask_i
  = [[1 / (1 + epsilon) * (lam / (lam + epsilon))]].
Proof.
  intros Hn Hm. unfold sense_hyp_attention.
  assert (Hp : sense_parameters [[e ++ [lam]]] = lam)
    by apply (sense_parameters_canonical e lam [] []).
  rewrite Hp, Hn.
  rewrite (single_sense_probability epsilon lam mask_i Hm).
  unfold x_synset_embeddings. simpl map. rewrite removelast_last.
  rewrite (single_slot_hyp_attention self e h_tm1 mask_i Hm).
  simpl. now rewrite Rplus_0_r.
Qed.

Lemma lstm_input_single_slot epsilon self (e : list R) lam h_tm1 mask_i :
  num_senses self = 1%nat ->
  Z.to_nat (input_dim (base self)) = length e ->
  mask_i = None \/ mask_i = Some [[true]] ->
  lstm_input_t epsilon self [[e ++ [lam]]] h_tm1 mask_i
  = map (fun v => v * (1 / (1 + epsilon) * (lam / (lam + epsilon)))) e.
Proof.
  intros Hn Hd Hm. unfold lstm_input_t.
  rewrite (single_slot_attention epsilon self e lam h_tm1 mask_i Hn Hm).
  assert (Hemb : mask_embeddings mask_i (x_synset_embeddings [[e ++ [lam]]])
                 = [[e]]).
  { unfold x_synset_embeddings. simpl map. rewrite removelast_last.
    destruct Hm as [-> | ->]; reflexivity. }
  rewrite Hemb. simpl weighted_product.
  apply K_sum_axes_single. now rewrite length_map.
Qed.

(** C4, as the code has it: with one sense, one hyp and nothing masked, the
    effective input vector is the single embedding SCALED by
    1 / (1 + epsilon) * (lambda / (lambda + epsilon)), in both modes; the
    two epsilon-guarded normalisations do not cancel. *)
Theorem single_slot_effective_input (epsilon : R) (self : OntoAttentionLSTM)
        (e : vec) (lam : R) (h_tm1 : vec) (mask_i : option (grid bool))
        (Hsenses : num_senses self = 1%nat)
        (Hdim : Z.to_nat (input_dim (base self)) = length e)
        (Hmask : mask_i = None \/ mask_i = Some [[true]]) :
  lstm_input_t epsilon self [[e ++ [lam]]] h_tm1 mask_i
  = map (fun v => v * (1 / (1 + epsilon) * (lam / (lam + epsilon)))) e.
Proof.
  now apply lstm_input_single_slot.
Qed.

Lemma single_slot_effective_input_witness :
  lstm_input_t default_epsilon (example_layer 1 1 true) [[[3] ++ [2]]] [0]
               (Some [[true]])
  = map (fun v => v * (1 / (1 + default_epsilon)
                       * (2 / (2 + default_epsilon)))) [3].
Proof.
  apply (single_slot_effective_input default_epsilon (example_layer 1 1 true)
           [3] 2 [0] (Some [[true]]));
    [reflexivity | reflexivity | right; reflexivity].
Defined.

(** C4, refuted as stated: with the default epsilon, one sense, one hyp,
    no mask, embedding [1] and lambda 1, the effective input is not the
    embedding. *)
Lemma single_slot_input_not_identity :
  lstm_input_t default_epsilon (example_layer 1 1 false) [[[1; 1]]] [0] None
  <> [1].
Proof.
  intros Hid.
  pose proof (lstm_input_single_slot default_epsilon (example_layer 1 1 false)
                [1] 1 [0] None eq_refl eq_refl (or_introl eq_refl)) as Hval.
  pose proof (eq_trans (eq_sym Hval) Hid) as H.
  simpl in H. injection H as H.
  unfold default_epsilon in H.
  assert (Hq : 1 / (1 + 1 / 10000000) = 10000000 / 10000001) by (field; lra).
  rewrite Hq in H. lra.
Qed.

(** ** Masked embeddings do not reach the step's results *)

Lemma zip_with_map_r {A B C D} (f : A -> C -> D) (h : B -> C) l l' :
  zip_with f l (map h l') = zip_with (fun a b => f a (h b)) l l'.
Proof.
  revert l'; induction l as [|a l IH]; intros [|b l']; simpl; auto.
  now rewrite IH.
Qed.

Lemma zip_with_ext {A B C} (f g : A -> B -> C) l l' :
  (forall a b, f a b = g a b) -> zip_with f l l' = zip_with g l l'.
Proof.
  intros Hfg. revert l'; induction l as [|a l IH]; intros [|b l']; simpl; auto.
  now rewrite Hfg, IH.
Qed.

Lemma zip_grid_map_r {A B C D} (f : A -> C -> D) (h : B -> C)
      (m : grid A) (x : grid B) :
  zip_with (zip_with f) m (map (map h) x)
  = zip_with (zip_with (fun b e => f b (h e))) m x.
Proof.
  rewrite zip_with_map_r. apply zip_with_ext. intros mr r.
  apply zip_with_map_r.
Qed.

Lemma row_zip_agree {B} (f : bool -> vec -> B) mr r r' :
  (forall b e e', slot_agrees b e e' -> f b e = f b e') ->
  row_agrees mr r r' -> zip_with f mr r = zip_with f mr r'.
Proof.
  intros Hf. revert r r'; induction mr as [|b mr IH]; intros [|e r] [|e' r'];
    simpl; try tauto.
  intros [Hslot Hrow]. now rewrite (Hf b e e' Hslot), (IH r r' Hrow).
Qed.

Lemma masked_zip_agree {B} (f : bool -> vec -> B) m x x' :
  (forall b e e', slot_agrees b e e' -> f b e = f b e') ->
  differ_only_masked m x x' ->
  zip_with (zip_with f) m x = zip_with (zip_with f) m x'.
Proof.
  intros Hf. revert x x'; induction m as [|mr m IH]; intros [|r x] [|r' x'];
    simpl; try tauto.
  intros [Hrow Hrest].
  now rewrite (row_zip_agree f mr r r' Hf Hrow), (IH x x' Hrest).
Qed.

Lemma sense_parameters_agree m x x' :
  differ_only_masked m x x' -> sense_parameters x = sense_parameters x'.
Proof.
  unfold sense_parameters.
  destruct m as [|mr m], x as [|r x], x' as [|r' x']; simpl; try tauto.
  intros [Hrow _].
  destruct mr as [|b mr], r as [|e r], r' as [|e' r']; simpl in *; try tauto.
  destruct Hrow as [Hslot _]. destruct b; simpl in Hslot.
  - now subst.
  - tauto.
Qed.

Lemma constant_map_length {A B} (c : B) (l l' : list A) :
  length l = length l' -> map (fun _ => c) l = map (fun _ => c) l'.
Proof.
  revert l'; induction l as [|a l IH]; intros [|a' l'] Hlen; simpl in *;
    try discriminate; auto.
  f_equal. apply IH. lia.
Qed.

Lemma removelast_length {A} (l : list A) :
  length (removelast l) = (length l - 1)%nat.
Proof.
  induction l as [|a l IH]; [reflexivity|].
  destruct l as [|a' l]; [reflexivity|].
  change (removelast (a :: a' :: l)) with (a :: removelast (a' :: l)).
  simpl length in *. lia.
Qed.

Lemma hyp_attention_agree self m x x' h_tm1 :
  differ_only_masked m x x' ->
  hyp_attention self (x_synset_embeddings x) h_tm1 (Some m)
  = hyp_attention self (x_synset_embeddings x') h_tm1 (Some m).
Proof.
  intros Hd. unfold hyp_attention.
  assert (Hscores :
            switch_grid (Some m) (hyp_scores self (x_synset_embeddings x) h_tm1)
            = switch_grid (Some m)
                (hyp_scores self (x_synset_embeddings x') h_tm1)).
  { unfold switch_grid, hyp_scores, hyp_projection, input_hyp_projection,
      x_synset_embeddings.
    rewrite !zip_grid_map_r.
    apply masked_zip_agree; [|exact Hd].
    intros [|] e e' Hslot; simpl in Hslot; [now subst | reflexivity]. }
  assert (Hones :
            switch_grid (Some m) (map (map (fun _ => 1)) (x_synset_embeddings x))
            = switch_grid (Some m)
                (map (map (fun _ => 1)) (x_synset_embeddings x'))).
  { unfold switch_grid, x_synset_embeddings.
    rewrite !zip_grid_map_r.
    apply masked_zip_agree; [|exact Hd].
    intros [|] e e' Hslot; simpl in Hslot; [now subst | reflexivity]. }
  now rewrite Hscores, Hones.
Qed.

Lemma mask_embeddings_agree m x x' :
  differ_only_masked m x x' ->
  mask_embeddings (Some m) (x_synset_embeddings x)
  = mask_embeddings (Some m) (x_synset_embeddings x').
Proof.
  intros Hd. unfold mask_embeddings, x_synset_embeddings.
  rewrite !zip_grid_map_r.
  apply masked_zip_agree; [|exact Hd].
  intros [|] e e' Hslot; simpl in Hslot; [now subst|].
  rewrite !switch_bit. apply constant_map_length.
  rewrite !removelast_length. lia.
Qed.

(** C9: with the weights, the prior states and the mask fixed, two step
    inputs that differ only in the embedding components of slots whose mask
    bit is 0 (every slot keeps its last component, the sense prior) give the
    same step result: the same hidden vector, cell state and attention
    grid. *)
Theorem masked_embeddings_noninterference (epsilon : R)
        (LSTM_step : LSTM -> vec -> list vec -> vec * (vec * vec))
        (self : OntoAttentionLSTM) (m : grid bool) (x x' : tensor3)
        (states : list vec)
        (Hdiffer : differ_only_masked m x x') :
  _step epsilon LSTM_step self x states (Some m)
  = _step epsilon LSTM_step self x' states (Some m)
  /\ step epsilon LSTM_step self x states (Some m)
     = step epsilon LSTM_step self x' states (Some m).
Proof.
  assert (Hatt : forall h_tm1,
            sense_hyp_attention epsilon self x h_tm1 (Some m)
            = sense_hyp_attention epsilon self x' h_tm1 (Some m)).
  { intros h_tm1. unfold sense_hyp_attention.
    now rewrite (hyp_attention_agree self m x x' h_tm1 Hdiffer),
      (sense_parameters_agree m x x' Hdiffer). }
  assert (Hin : forall h_tm1,
            lstm_input_t epsilon self x h_tm1 (Some m)
            = lstm_input_t epsilon self x' h_tm1 (Some m)).
  { intros h_tm1. unfold lstm_input_t.
    now rewrite (Hatt h_tm1), (mask_embeddings_agree m x x' Hdiffer). }
  assert (Hstep : _step epsilon LSTM_step self x states (Some m)
                  = _step epsilon LSTM_step self x' states (Some m)).
  { unfold _step. now rewrite Hatt, Hin. }
  split; [exact Hstep|].
  unfold step. now rewrite Hstep.
Qed.

Lemma masked_embeddings_noninterference_witness :
  _step default_epsilon (fun _ v _ => (v, (v, v))) (example_layer 1 2 true)
        [[[3; 1]; [4; 1]]] [[0]; [0]] (Some [[true; false]])
  = _step default_epsilon (fun _ v _ => (v, (v, v))) (example_layer 1 2 true)
          [[[3; 1]; [9; 1]]] [[0]; [0]] (Some [[true; false]]).
Proof.
  apply (masked_embeddings_noninterference default_epsilon
           (fun _ v _ => (v, (v, v))) (example_layer 1 2 true)
           [[true; false]] [[[3; 1]; [4; 1]]] [[[3; 1]; [9; 1]]] [[0]; [0]]).
  simpl. repeat split; reflexivity.
Defined.

(** ** The mass of the joint attention grid *)

(** A mask bit as the 0/1 weight of the uniform mode. *)
Lemma uniform_switch (b : bool) : K_switch (bit b) 1 0 = if b then 1 else 0.
Proof. apply switch_bit. Qed.

Lemma zip_with_const_r {A B C} (g : A -> C) (l : list A) (l' : list B) :
  length l = length l' -> zip_with (fun a _ => g a) l l' = map g l.
Proof.
  revert l'; induction l as [|a l IH]; intros [|b l'] Hlen; simpl in *;
    try discriminate; auto.
  f_equal. apply IH. lia.
Qed.


Lemma K_sum_map_scale (c : R) (l : list R) :
  K_sum (map (fun a => a * c) l) = K_sum l * c.
Proof.
  induction l as [|a l IH]; simpl; [lra | rewrite IH; lra].
Qed.

Lemma K_sum_map_div (c : R) (l : list R) :
  K_sum (map (fun a => a / c) l) = K_sum l / c.
Proof.
  unfold Rdiv. apply K_sum_map_scale.
Qed.

Lemma K_sum_zeros (l : list R) : Forall (fun a => a = 0) l -> K_sum l = 0.
Proof.
  induction 1 as [|a l Ha _ IH]; simpl; [reflexivity | rewrite Ha, IH; lra].
Qed.

(** The grid of the uniform mode is the mask read as 0/1 weights. *)
Lemma uniform_attention_mask self x h_tm1 m n h :
  use_attention self = false -> rect n h x -> rect n h m ->
  hyp_attention self (x_synset_embeddings x) h_tm1 (Some m)
  = map (map (fun b : bool => if b then 1 else 0)) m.
Proof.
  intros Hmode Hx Hm. unfold hyp_attention. rewrite Hmode.
  unfold switch_grid, x_synset_embeddings.
  rewrite !zip_grid_map_r.
  rewrite (zip_with_grid_tabulate _ n h m x true [] Hm Hx).
  rewrite (map_grid_tabulate (fun b : bool => if b then 1 else 0) n h m true Hm).
  apply map_ext. intros s. apply map_ext. intros k. apply uniform_switch.
Qed.

Lemma uniform_attention_ones self x h_tm1 :
  use_attention self = false ->
  hyp_attention self (x_synset_embeddings x) h_tm1 None
  = map (map (fun _ => 1)) x.
Proof.
  intros Hmode. unfold hyp_attention. rewrite Hmode.
  unfold switch_grid, x_synset_embeddings. rewrite map_map.
  apply map_ext. intros row. now rewrite map_map.
Qed.

(** Scores of a fully masked timestep. *)
Lemma fully_masked_scores lam n m :
  forallb (forallb negb) m = true ->
  Forall (fun a => a = 0) (sense_scores lam n (Some m)).
Proof.
  unfold sense_scores. generalize (raw_sense_scores lam n) as raw.
  induction m as [|mr m IH]; intros raw Hall; [constructor|].
  simpl in Hall. apply andb_prop in Hall as [Hrow Hrest].
  destruct raw as [|r raw]; [constructor|].
  simpl. constructor; [|now apply IH].
  unfold K_switch. now rewrite sense_mask_zero, Hrow.
Qed.

Lemma fully_masked_probabilities epsilon lam n m :
  forallb (forallb negb) m = true ->
  Forall (fun a => a = 0) (sense_probabilities epsilon lam n (Some m)).
Proof.
  intros Hall. unfold sense_probabilities.
  rewrite Forall_map.
  eapply Forall_impl; [|exact (fully_masked_scores lam n m Hall)].
  intros a ->. unfold Rdiv. apply Rmult_0_l.
Qed.

Lemma zero_probabilities_grid (g : grid R) (probs : list R) :
  Forall (fun p => p = 0) probs ->
  Forall (Forall (fun a => a = 0))
         (zip_with (fun row p => map (fun a => a * p) row) g probs).
Proof.
  revert probs; induction g as [|row g IH]; intros [|p probs] Hz; simpl;
    try constructor.
  - inversion Hz as [|? ? Hp _]; subst.
    rewrite Forall_map, Forall_forall. intros a _. apply Rmult_0_r.
  - inversion Hz; subst. now apply IH.
Qed.


Lemma fully_masked_grid epsilon self x h_tm1 mask_i :
  fully_masked mask_i ->
  Forall (Forall (fun a => a = 0))
         (sense_hyp_attention epsilon self x h_tm1 mask_i).
Proof.
  destruct mask_i as [m|]; simpl; [|tauto].
  intros Hall. unfold sense_hyp_attention.
  apply zero_probabilities_grid, fully_masked_probabilities, Hall.
Qed.





Lemma raw_sense_scores_nonneg lam n :
  0 <= lam -> Forall (fun a => 0 <= a) (raw_sense_scores lam n).
Proof.
  intros Hl. unfold raw_sense_scores. rewrite Forall_map, Forall_forall.
  intros ind _. apply Rmult_le_pos; [assumption | left; apply exp_pos].
Qed.

Lemma sense_scores_nonneg lam n mask_i :
  0 <= lam -> Forall (fun a => 0 <= a) (sense_scores lam n mask_i).
Proof.
  intros Hl. pose proof (raw_sense_scores_nonneg lam n Hl) as Hraw.
  unfold sense_scores. destruct mask_i as [m|]; [|exact Hraw].
  revert Hraw. generalize (raw_sense_scores lam n) as raw.
  unfold sense_mask.
  induction m as [|mr m IH]; intros [|r raw] Hraw; simpl; try constructor.
  - inversion Hraw; subst. unfold K_switch.
    destruct (Z.eqb _ 0); [apply Rle_refl | assumption].
  - inversion Hraw; subst. now apply IH.
Qed.

Lemma big_sum_ext (f g : nat -> R) n :
  (forall i, (i < n)%nat -> f i = g i) -> big_sum f n = big_sum g n.
Proof.
  induction n as [|n IH]; intros Hfg; simpl; [reflexivity|].
  rewrite IH by (intros i Hi; apply Hfg; lia).
  now rewrite (Hfg n) by lia.
Qed.


Lemma K_sum_indicator (row : list bool) :
  K_sum (map (fun b : bool => if b then 1 else 0) row)
  = INR (count_occ bool_dec row true).
Proof.
  induction row as [|b row IH]; [reflexivity|].
  change (K_sum (map (fun b : bool => if b then 1 else 0) (b :: row)))
    with ((if b then 1 else 0)
          + K_sum (map (fun b : bool => if b then 1 else 0) row)).
  rewrite IH. destruct b; simpl count_occ.
  - destruct (bool_dec true true); [|congruence]. rewrite S_INR. lra.
  - destruct (bool_dec false true); [congruence|]. lra.
Qed.


Lemma K_sum_ones {A} (row : list A) :
  K_sum (map (fun _ => 1) row) = INR (length row).
Proof.
  induction row as [|e row IH]; [reflexivity|].
  change (K_sum (map (fun _ => 1) (e :: row)))
    with (1 + K_sum (map (fun _ : A => 1) row)).
  rewrite IH. change (length (e :: row)) with (S (length row)).
  rewrite S_INR. lra.
Qed.


Lemma sense_scores_length lam n mask_i :
  match mask_i with Some m => length m = n | None => True end ->
  length (sense_scores lam n mask_i) = n.
Proof.
  intros Hm. rewrite (sense_scores_spec lam n mask_i Hm).
  now rewrite length_map, length_seq.
Qed.



Lemma default_epsilon_pos : 0 < default_epsilon.
Proof. unfold default_epsilon. lra. Qed.



(** The sense prior is read at slot (0, 0) whatever that slot's mask bit:
    two inputs that differ only in the last component of the masked slot
    (0, 0) have different attention grids. *)
Lemma sense_prior_read_under_mask :
  sense_hyp_attention default_epsilon (example_layer 1 2 false)
                      [[[3; 1]; [4; 1]]] [0] (Some [[false; true]])
  <> sense_hyp_attention default_epsilon (example_layer 1 2 false)
                         [[[3; 2]; [4; 1]]] [0] (Some [[false; true]]).
Proof.
  unfold sense_hyp_attention, hyp_attention, sense_probabilities, sense_scores,
    hyp_given_sense_attention.
  simpl.
  change (sense_parameters [[[3; 1]; [4; 1]]]) with 1.
  change (sense_parameters [[[3; 2]; [4; 1]]]) with 2.
  unfold K_switch. simpl Z.eqb. cbv iota.
  rewrite !Rmult_0_r, exp_0.
  intros H. injection H as _ H.
  unfold default_epsilon in H.
  assert (H1 : 1 / (0 + (1 + 0) + 1 / 10000000) = 10000000 / 10000001)
    by (field; lra).
  assert (H2 : 1 * 1 / (1 * 1 + 0 + 1 / 10000000) = 10000000 / 10000001)
    by (field; lra).
  assert (H3 : 2 * 1 / (2 * 1 + 0 + 1 / 10000000) = 20000000 / 20000001)
    by (field; lra).
  rewrite H1, H2, H3 in H. lra.
Qed.

(** * Further properties of the layer *)

(** ** Construction and [build] *)

(** X1: whatever the keyword arguments, the constructed layer is never in
    mode "cpu", its input specification is rank 5, it keeps the mode it was
    given unless that was "cpu", and it warns exactly when it was "cpu". *)
Theorem init_never_cpu (out n_senses n_hyps : nat) (use_att return_att : bool)
        (kw : kwargs) :
  let self := fst (__init__ out n_senses n_hyps use_att return_att kw) in
  let warned := snd (__init__ out n_senses n_hyps use_att return_att kw) in
  consume_less (base self) <> "cpu"%string
  /\ input_spec (base self) = [InputSpec_ndim 5]
  /\ (kw_consume_less kw <> "cpu"%string ->
      consume_less (base self) = kw_consume_less kw /\ warned = [])
  /\ (kw_consume_less kw = "cpu"%string -> warned = [cpu_warning])
  /\ num_senses self = n_senses /\ num_hyps self = n_hyps
  /\ use_attention self = use_att /\ return_attention self = return_att.
Proof.
  unfold __init__. cbv zeta.
  change (consume_less (set_input_spec (LSTM___init__ out kw) [InputSpec_ndim 5]))
    with (kw_consume_less kw).
  destruct (String.eqb (kw_consume_less kw) "cpu") eqn:Hc; simpl.
  - apply String.eqb_eq in Hc.
    repeat split; try discriminate; try congruence.
  - apply String.eqb_neq in Hc.
    repeat split; try assumption; try reflexivity; try congruence.
Qed.

(** X2: on an input shape with fewer than five entries [build] raises
    [IndexError], whatever the base class does: the base build is not
    reached. *)
Theorem build_short_shape_raises
        (LSTM_build : LSTM -> shape -> outcome LSTM)
        (inner_init : Z -> Z -> outcome mat) (init : Z -> outcome vec)
        (set_weights : OntoAttentionLSTM -> list mat -> outcome OntoAttentionLSTM)
        (self : OntoAttentionLSTM) (input_shape : shape)
        (Hshort : (length input_shape < 5)%nat) :
  build LSTM_build inner_init init set_weights self input_shape
  = Raise IndexError.
Proof.
  unfold build, shape_index_minus_one.
  assert (Hnone : nth_error input_shape 4 = None)
    by (apply nth_error_None; lia).
  now rewrite Hnone.
Qed.

Lemma build_short_shape_raises_witness :
  build keras_LSTM_build zeros_init zeros_init_vec keras_set_weights
        (example_layer 2 2 true) [Some 1; Some 2; Some 3]%Z
  = Raise IndexError.
Proof.
  apply (build_short_shape_raises keras_LSTM_build zeros_init zeros_init_vec
           keras_set_weights (example_layer 2 2 true)
           [Some 1; Some 2; Some 3]%Z).
  simpl. lia.
Defined.

(** X3: on an input shape whose entry 4 is [None] (an unknown embedding
    dimension) [build] raises [TypeError], whatever the base class does. *)
Theorem build_unknown_dimension_raises
        (LSTM_build : LSTM -> shape -> outcome LSTM)
        (inner_init : Z -> Z -> outcome mat) (init : Z -> outcome vec)
        (set_weights : OntoAttentionLSTM -> list mat -> outcome OntoAttentionLSTM)
        (self : OntoAttentionLSTM) (input_shape : shape)
        (Hnone : nth_error input_shape 4 = Some None) :
  build LSTM_build inner_init init set_weights self input_shape
  = Raise TypeError.
Proof.
  unfold build, shape_index_minus_one. now rewrite Hnone.
Qed.

Lemma build_unknown_dimension_raises_witness :
  build keras_LSTM_build zeros_init zeros_init_vec keras_set_weights
        (example_layer 2 2 true) [None; Some 2; Some 2; Some 2; None]%Z
  = Raise TypeError.
Proof.
  apply (build_unknown_dimension_raises keras_LSTM_build zeros_init
           zeros_init_vec keras_set_weights (example_layer 2 2 true)
           [None; Some 2; Some 2; Some 2; None]%Z).
  reflexivity.
Defined.

(** X4: initial weights are set last.  Building a layer that carries initial
    weights [w] is building the same layer without them and then calling
    [set_weights] with [w] on the result: the base build never sees them,
    and [set_weights] runs after the attention parameters exist. *)
Theorem build_defers_initial_weights
        (LSTM_build : LSTM -> shape -> outcome LSTM)
        (inner_init : Z -> Z -> outcome mat) (init : Z -> outcome vec)
        (set_weights : OntoAttentionLSTM -> list mat -> outcome OntoAttentionLSTM)
        (self : OntoAttentionLSTM) (input_shape : shape) (w : list mat)
        (Hw : initial_weights (base self) = Some w) :
  build LSTM_build inner_init init set_weights self input_shape
  = match build LSTM_build inner_init init set_weights
                (set_base self (set_initial_weights (base self) None))
                input_shape with
    | Ok built => set_weights built w
    | Raise e => Raise e
    end.
Proof.
  unfold build.
  destruct (shape_index_minus_one input_shape 4) as [d|e]; [|reflexivity].
  cbv zeta.
  change (set_initial_weights
            (set_input_dim
               (set_input_spec
                  (base (set_base self (set_initial_weights (base self) None)))
                  [InputSpec_shape input_shape]) d) None)
    with (set_initial_weights
            (set_input_dim
               (set_input_spec (base self) [InputSpec_shape input_shape]) d)
            None).
  destruct (LSTM_build _ (firstn 2 input_shape ++ [Some d])) as [b'|e];
    [|reflexivity].
  change (initial_weights
            (set_input_dim
               (set_input_spec (base self) [InputSpec_shape input_shape]) d))
    with (initial_weights (base self)).
  rewrite Hw.
  change (use_attention
            (set_base (set_base self (set_initial_weights (base self) None))
                      (set_input_spec b' [InputSpec_shape input_shape])))
    with (use_attention self).
  change (use_attention
            (set_base self (set_input_spec b' [InputSpec_shape input_shape])))
    with (use_attention self).
  destruct (use_attention self); [|reflexivity].
  destruct (inner_init d _) as [P|e]; [|reflexivity].
  destruct (inner_init _ _) as [C|e]; [|reflexivity].
  destruct (init _) as [v|e]; reflexivity.
Qed.

Lemma build_defers_initial_weights_witness :
  let self :=
    set_base (example_layer 2 2 true)
             (set_initial_weights example_base (Some [[[1]]])) in
  build keras_LSTM_build zeros_init zeros_init_vec
        (fun _ _ => Raise (Exception "shape")) self
        [Some 1; Some 2; Some 2; Some 2; Some 2]%Z
  = match build keras_LSTM_build zeros_init zeros_init_vec
                (fun _ _ => Raise (Exception "shape"))
                (set_base self (set_initial_weights (base self) None))
                [Some 1; Some 2; Some 2; Some 2; Some 2]%Z with
    | Ok built => Raise (Exception "shape")
    | Raise e => Raise e
    end.
Proof.
  intros self.
  apply (build_defers_initial_weights keras_LSTM_build zeros_init
           zeros_init_vec (fun _ _ => Raise (Exception "shape")) self
           [Some 1; Some 2; Some 2; Some 2; Some 2]%Z [[[1]]]).
  reflexivity.
Defined.

(** ** The range of the output mask *)

Lemma sum_bits_bounds (f : nat -> bool) n :
  (0 <= sum_upto (fun j => bit (f j)) n <= Z.of_nat n)%Z
  /\ (sum_upto (fun j => bit (f j)) n = 0%Z
      <-> forall j, (j < n)%nat -> f j = false)
  /\ (sum_upto (fun j => bit (f j)) n = Z.of_nat n
      <-> forall j, (j < n)%nat -> f j = true).
Proof.
  induction n as [|n (IHb & IH0 & IHn)].
  - simpl. repeat split; try lia; intros; lia.
  - simpl sum_upto.
    assert (Hbit : (bit (f n) = 0 /\ f n = false \/ bit (f n) = 1 /\ f n = true)%Z)
      by (destruct (f n); [right | left]; split; reflexivity).
    split; [destruct Hbit as [[Hb _]|[Hb _]]; lia|]. split.
    + split.
      * intros Hsum j Hj.
        destruct Hbit as [[Hb Hf]|[Hb Hf]]; [|lia].
        destruct (Nat.eq_dec j n) as [->|Hne]; [assumption|].
        apply IH0; lia.
      * intros Hall.
        rewrite (proj2 IH0) by (intros j Hj; apply Hall; lia).
        rewrite (Hall n) by lia. reflexivity.
    + split.
      * intros Hsum j Hj.
        destruct Hbit as [[Hb Hf]|[Hb Hf]]; [lia|].
        destruct (Nat.eq_dec j n) as [->|Hne]; [assumption|].
        apply IHn; lia.
      * intros Hall.
        rewrite (proj2 IHn) by (intros j Hj; apply Hall; lia).
        rewrite (Hall n) by lia. change (bit true) with 1%Z. lia.
Qed.

Lemma sum_rows_bounds (g : nat -> Z) (n H : nat) :
  (forall i, (i < n)%nat -> (0 <= g i <= Z.of_nat H)%Z) ->
  (0 <= sum_upto g n <= Z.of_nat (n * H))%Z
  /\ (sum_upto g n = 0%Z <-> forall i, (i < n)%nat -> g i = 0%Z)
  /\ (sum_upto g n = Z.of_nat (n * H)
      <-> forall i, (i < n)%nat -> g i = Z.of_nat H).
Proof.
  induction n as [|n IH]; intros Hg.
  - simpl. repeat split; try lia; intros; lia.
  - destruct (IH (fun i Hi => Hg i ltac:(lia))) as (IHb & IH0 & IHn).
    pose proof (Hg n ltac:(lia)) as Hn.
    simpl sum_upto.
    assert (Hmul : Z.of_nat (S n * H) = (Z.of_nat (n * H) + Z.of_nat H)%Z) by lia.
    rewrite Hmul.
    split; [lia|]. split.
    + split.
      * intros Hsum i Hi.
        destruct (Nat.eq_dec i n) as [->|Hne]; [lia|].
        apply IH0; lia.
      * intros Hall.
        rewrite (proj2 IH0) by (intros i Hi; apply Hall; lia).
        rewrite (Hall n) by lia. reflexivity.
    + split.
      * intros Hsum i Hi.
        destruct (Nat.eq_dec i n) as [->|Hne]; [lia|].
        apply IHn; lia.
      * intros Hall.
        rewrite (proj2 IHn) by (intros i Hi; apply Hall; lia).
        rewrite (Hall n) by lia. reflexivity.
Qed.

(** X5: when sequences are returned, on a mask of axes (samples, timesteps,
    senses, hyps, 1) with [S] senses and [H] hyps, the output mask has the
    axes (samples, timesteps, 1) and each entry lies between 0 and [S * H];
    an entry is 0 exactly when every slot of the timestep is masked and
    [S * H] exactly when none is. *)
Theorem compute_mask_range (self : OntoAttentionLSTM) (mask : mask_tensor)
        (B T S H : nat)
        (Hseq : return_sequences (base self) = true)
        (Hshape : mask_shape mask = [B; T; S; H; 1%nat]) :
  exists out,
    compute_mask self (Some mask) = Ok (Some out)
    /\ int_shape out = [B; T; 1%nat]
    /\ forall b t,
         (0 <= int_at out [b; t; 0%nat] <= Z.of_nat (S * H))%Z
         /\ (int_at out [b; t; 0%nat] = 0%Z
             <-> forall s h, (s < S)%nat -> (h < H)%nat ->
                   mask_at mask [b; t; s; h; 0%nat] = false)
         /\ (int_at out [b; t; 0%nat] = Z.of_nat (S * H)
             <-> forall s h, (s < S)%nat -> (h < H)%nat ->
                   mask_at mask [b; t; s; h; 0%nat] = true).
Proof.
  destruct (K_sum_axes_rank5 mask B T S H 1 Hshape) as (out & Hout & Hs & Hat).
  exists out. unfold compute_mask. rewrite Hseq, Hout.
  split; [reflexivity|]. split; [exact Hs|].
  intros b t. rewrite Hat.
  set (row := fun s => sum_upto (fun h => bit (mask_at mask [b; t; s; h; 0%nat])) H).
  assert (Hrow : forall s, (s < S)%nat -> (0 <= row s <= Z.of_nat H)%Z).
  { intros s _. unfold row.
    apply (sum_bits_bounds (fun h => mask_at mask [b; t; s; h; 0%nat]) H). }
  destruct (sum_rows_bounds row S H Hrow) as (Hb & H0 & Hn).
  split; [exact Hb|]. split.
  - rewrite H0. split.
    + intros Hall s h Hs' Hh.
      apply (proj1 (proj1 (proj2 (sum_bits_bounds
               (fun h => mask_at mask [b; t; s; h; 0%nat]) H))) (Hall s Hs') h Hh).
    + intros Hall s Hs'.
      apply (proj2 (proj1 (proj2 (sum_bits_bounds
               (fun h => mask_at mask [b; t; s; h; 0%nat]) H)))).
      intros h Hh. now apply Hall.
  - rewrite Hn. split.
    + intros Hall s h Hs' Hh.
      apply (proj1 (proj2 (proj2 (sum_bits_bounds
               (fun h => mask_at mask [b; t; s; h; 0%nat]) H))) (Hall s Hs') h Hh).
    + intros Hall s Hs'.
      apply (proj2 (proj2 (proj2 (sum_bits_bounds
               (fun h => mask_at mask [b; t; s; h; 0%nat]) H)))).
      intros h Hh. now apply Hall.
Qed.

Lemma compute_mask_range_witness :
  exists out,
    compute_mask (example_layer 1 2 false)
                 (Some (mask_of_ones [1; 2; 1; 2; 1]%nat
                                     [[0; 0; 0; 0; 0]]%nat))
    = Ok (Some out)
    /\ int_shape out = [1; 2; 1]%nat
    /\ forall b t,
         (0 <= int_at out [b; t; 0%nat] <= Z.of_nat (1 * 2))%Z
         /\ (int_at out [b; t; 0%nat] = 0%Z
             <-> forall s h, (s < 1)%nat -> (h < 2)%nat ->
                   mask_at (mask_of_ones [1; 2; 1; 2; 1]%nat
                                         [[0; 0; 0; 0; 0]]%nat)
                           [b; t; s; h; 0%nat] = false)
         /\ (int_at out [b; t; 0%nat] = Z.of_nat (1 * 2)
             <-> forall s h, (s < 1)%nat -> (h < 2)%nat ->
                   mask_at (mask_of_ones [1; 2; 1; 2; 1]%nat
                                         [[0; 0; 0; 0; 0]]%nat)
                           [b; t; s; h; 0%nat] = true).
Proof.
  apply (compute_mask_range (example_layer 1 2 false)
           (mask_of_ones [1; 2; 1; 2; 1]%nat [[0; 0; 0; 0; 0]]%nat) 1 2 1 2);
    reflexivity.
Defined.

(** ** [get_config] *)

Lemma dict_get_set (d : dict) (k k' : string) (v : config_value) :
  dict_get (dict_set d k v) k'
  = if String.eqb k' k then Some v else dict_get d k'.
Proof.
  induction d as [|[k0 v0] d IH]; simpl.
  - reflexivity.
  - destruct (String.eqb k k0) eqn:Hk; simpl.
    + apply String.eqb_eq in Hk; subst k0.
      now destruct (String.eqb k' k).
    + destruct (String.eqb k' k0) eqn:Hk0.
      * apply String.eqb_eq in Hk0; subst k0.
        rewrite String.eqb_sym in Hk. now rewrite Hk.
      * exact IH.
Qed.

Lemma dict_set_keys (d : dict) (k : string) (v : config_value) :
  NoDup (map fst d) -> NoDup (map fst (dict_set d k v)).
Proof.
  induction d as [|[k0 v0] d IH]; simpl; intros Hnd.
  - constructor; [intros [] | constructor].
  - inversion Hnd as [|? ? Hnotin Hrest]; subst.
    destruct (String.eqb k k0) eqn:Hk; simpl.
    + now constructor.
    + constructor; [|now apply IH].
      intros Hin. apply Hnotin.
      clear -Hin Hk. induction d as [|[k1 v1] d IHd]; simpl in *.
      * destruct Hin as [->|[]]. now rewrite String.eqb_refl in Hk.
      * destruct (String.eqb k k1) eqn:Hk1; simpl in *.
        -- exact Hin.
        -- destruct Hin as [->|Hin]; [now left | right; now apply IHd].
Qed.

Lemma fold_dict_set_get (items : list (string * config_value)) (d : dict)
      (k : string) :
  ~ In k (map fst items) ->
  dict_get (fold_left (fun d kv => dict_set d (fst kv) (snd kv)) items d) k
  = dict_get d k.
Proof.
  revert d; induction items as [|[k0 v0] items IH]; intros d Hnot; simpl.
  - reflexivity.
  - rewrite IH by (intros Hin; apply Hnot; now right).
    rewrite dict_get_set.
    destruct (String.eqb k k0) eqn:Hk; [|reflexivity].
    apply String.eqb_eq in Hk; subst. exfalso; apply Hnot; now left.
Qed.

Lemma fold_dict_set_keys (items : list (string * config_value)) (d : dict) :
  NoDup (map fst d) ->
  NoDup (map fst (fold_left (fun d kv => dict_set d (fst kv) (snd kv)) items d)).
Proof.
  revert d; induction items as [|[k0 v0] items IH]; intros d Hnd; simpl.
  - exact Hnd.
  - apply IH, dict_set_keys, Hnd.
Qed.

(** X6: the configuration round-trips the subclass's options.  Whatever the
    base class's configuration holds, even entries under the same four
    names, the four options read back from [get_config] are the layer's;
    every other key has the value of the base configuration; and no key
    occurs twice. *)
Theorem get_config_own_options (base_config : dict) (self : OntoAttentionLSTM) :
  config_options (get_config base_config self)
  = Some (Z.of_nat (num_senses self), Z.of_nat (num_hyps self),
          use_attention self, return_attention self)
  /\ (forall k, ~ In k own_keys ->
        dict_get (get_config base_config self) k
        = dict_get (dict_of_items base_config) k)
  /\ NoDup (map fst (get_config base_config self)).
Proof.
  unfold get_config, dict_of_items. cbv zeta.
  rewrite fold_left_app.
  assert (Hd0 : NoDup (map fst (fold_left
                                 (fun d kv => dict_set d (fst kv) (snd kv))
                                 base_config [])))
    by (apply fold_dict_set_keys; constructor).
  revert Hd0.
  generalize (fold_left (fun d kv => dict_set d (fst kv) (snd kv))
                        base_config []) as d0.
  intros d0 Hd0.
  split; [|split].
  - unfold config_options. simpl fold_left.
    rewrite !dict_get_set. simpl. reflexivity.
  - intros k Hk. simpl fold_left. rewrite !dict_get_set.
    unfold own_keys in Hk. simpl in Hk.
    destruct (String.eqb k "return_attention") eqn:H4;
      [apply String.eqb_eq in H4; subst; tauto|].
    destruct (String.eqb k "use_attention") eqn:H3;
      [apply String.eqb_eq in H3; subst; tauto|].
    destruct (String.eqb k "num_hyps") eqn:H2;
      [apply String.eqb_eq in H2; subst; tauto|].
    destruct (String.eqb k "num_senses") eqn:H1;
      [apply String.eqb_eq in H1; subst; tauto|].
    reflexivity.
  - apply fold_dict_set_keys. exact Hd0.
Qed.

(** ** The input of the base class's state initialisation *)

(** X7: for a sample whose timesteps all have at least one sense and one
    hyp and slots of [d + 1] components, the tensor handed to the base
    class by [get_initial_states] and [get_constants] has one vector of
    exactly [d] components per timestep: the embedding of slot (0, 0) that
    the step reads, without the sense prior. *)
Theorem stripped_input_shape (x : list tensor3) (n h d : nat)
        (Hn : (0 < n)%nat) (Hh : (0 < h)%nat)
        (Hshape : Forall (fun x_t => rect n h x_t /\ slots_of_dim d x_t) x) :
  length (sense_hyp_stripped_x x) = length x
  /\ Forall (fun v => length v = d) (sense_hyp_stripped_x x)
  /\ sense_hyp_stripped_x x
     = map (fun x_t => nth 0 (nth 0 (x_synset_embeddings x_t) []) []) x.
Proof.
  unfold sense_hyp_stripped_x. split; [apply length_map|]. split.
  - rewrite Forall_map. eapply Forall_impl; [|exact Hshape].
    intros x_t [[Hlen Hrows] Hslots].
    destruct x_t as [|row x_t]; [simpl in Hlen; lia|].
    pose proof (Forall_inv Hrows) as Hrow. simpl in Hrow.
    destruct row as [|slot row]; [simpl in Hrow; lia|].
    pose proof (Forall_inv (Forall_inv Hslots)) as Hslot. simpl in Hslot.
    simpl. rewrite removelast_length, Hslot. lia.
  - apply map_ext_in. intros x_t Hin.
    rewrite Forall_forall in Hshape.
    destruct (Hshape x_t Hin) as [[Hlen Hrows] _].
    destruct x_t as [|row x_t]; [simpl in Hlen; lia|].
    pose proof (Forall_inv Hrows) as Hrow. simpl in Hrow.
    destruct row as [|slot row]; [simpl in Hrow; lia|].
    reflexivity.
Qed.

Lemma stripped_input_shape_witness :
  length (sense_hyp_stripped_x [[[[3; 1]; [4; 1]]]; [[[5; 2]; [6; 2]]]])
  = length [[[[3; 1]; [4; 1]]]; [[[5; 2]; [6; 2]]]]
  /\ Forall (fun v => length v = 1%nat)
            (sense_hyp_stripped_x [[[[3; 1]; [4; 1]]]; [[[5; 2]; [6; 2]]]])
  /\ sense_hyp_stripped_x [[[[3; 1]; [4; 1]]]; [[[5; 2]; [6; 2]]]]
     = map (fun x_t => nth 0 (nth 0 (x_synset_embeddings x_t) []) [])
           [[[[3; 1]; [4; 1]]]; [[[5; 2]; [6; 2]]]].
Proof.
  apply (stripped_input_shape [[[[3; 1]; [4; 1]]]; [[[5; 2]; [6; 2]]]] 1 2 1).
  - lia.
  - lia.
  - repeat constructor.
Defined.

(** ** The range of the sense probabilities *)

Lemma K_sum_dominates (l : list R) :
  Forall (fun a => 0 <= a) l -> Forall (fun a => a <= K_sum l) l.
Proof.
  induction 1 as [|a l Ha Hl IH]; constructor.
  - pose proof (K_sum_nonneg l Hl). simpl.
    change (fold_right Rplus 0 l) with (K_sum l). lra.
  - eapply Forall_impl; [|exact IH]. intros b Hb. simpl.
    change (fold_right Rplus 0 l) with (K_sum l). lra.
Qed.

Lemma sense_probabilities_nonneg epsilon lam n mask_i :
  0 < epsilon -> 0 <= lam ->
  Forall (fun p => 0 <= p) (sense_probabilities epsilon lam n mask_i).
Proof.
  intros Heps Hl. unfold sense_probabilities.
  pose proof (sense_scores_nonneg lam n mask_i Hl) as Hs.
  pose proof (K_sum_nonneg _ Hs) as HS.
  rewrite Forall_map. eapply Forall_impl; [|exact Hs].
  intros a Ha. apply Rmult_le_pos; [assumption|].
  left. apply Rinv_0_lt_compat. lra.
Qed.

(** X8: for lambda >= 0 and epsilon > 0 there is one sense probability per
    sense, none of them negative, and together they sum to
    [S / (S + epsilon)] for [S] the sum of the sense scores. *)
Theorem sense_probabilities_range (epsilon lam : R) (n : nat)
        (mask_i : option (grid bool))
        (Heps : 0 < epsilon) (Hlam : 0 <= lam)
        (Hshape : match mask_i with Some m => length m = n | None => True end) :
  length (sense_probabilities epsilon lam n mask_i) = n
  /\ Forall (fun p => 0 <= p) (sense_probabilities epsilon lam n mask_i)
  /\ K_sum (sense_probabilities epsilon lam n mask_i)
     = K_sum (sense_scores lam n mask_i)
       / (K_sum (sense_scores lam n mask_i) + epsilon).
Proof.
  split; [|split].
  - unfold sense_probabilities. rewrite length_map.
    now apply sense_scores_length.
  - now apply sense_probabilities_nonneg.
  - unfold sense_probabilities. apply K_sum_map_div.
Qed.

Lemma sense_probabilities_range_witness :
  length (sense_probabilities default_epsilon 2 2 (Some [[true]; [false]]))
  = 2%nat
  /\ Forall (fun p => 0 <= p)
            (sense_probabilities default_epsilon 2 2 (Some [[true]; [false]]))
  /\ K_sum (sense_probabilities default_epsilon 2 2 (Some [[true]; [false]]))
     = K_sum (sense_scores 2 2 (Some [[true]; [false]]))
       / (K_sum (sense_scores 2 2 (Some [[true]; [false]])) + default_epsilon).
Proof.
  apply (sense_probabilities_range default_epsilon 2 2
           (Some [[true]; [false]])).
  - unfold default_epsilon. lra.
  - lra.
  - reflexivity.
Defined.

(** ** Timesteps that feed nothing to the cell *)

Lemma weighted_product_zero (emb : tensor3) (att : grid R) :
  Forall (Forall (fun a => a = 0)) att ->
  Forall (Forall (Forall (fun v => v = 0))) (weighted_product emb att).
Proof.
  unfold weighted_product.
  revert att; induction emb as [|row emb IH]; intros [|arow att] Hz; simpl;
    try constructor.
  - inversion Hz as [|? ? Harow _]; subst. clear -Harow.
    revert arow Harow; induction row as [|e row IHr]; intros [|a arow] Ha;
      simpl; constructor.
    + inversion Ha; subst. rewrite Forall_map, Forall_forall.
      intros v _. apply Rmult_0_r.
    + inversion Ha; subst. now apply IHr.
  - inversion Hz; subst. now apply IH.
Qed.

Lemma zero_vector_nth (e : list R) i :
  Forall (fun v => v = 0) e -> nth i e 0 = 0.
Proof.
  intros He. revert i; induction He as [|v e Hv _ IH]; intros [|i]; simpl; auto.
Qed.

Lemma K_sum_axes_zero (d : nat) (t : tensor3) :
  Forall (Forall (Forall (fun v => v = 0))) t ->
  K_sum_axes_1_2 d t = repeat 0 d.
Proof.
  intros Hz. unfold K_sum_axes_1_2.
  rewrite (map_ext _ (fun _ => 0)).
  - now rewrite map_const, length_seq.
  - intros i. apply K_sum_zeros. rewrite Forall_map.
    apply Forall_concat in Hz.
    eapply Forall_impl; [|exact Hz].
    intros e He. now apply zero_vector_nth.
Qed.

Lemma zero_attention_zero_input epsilon self x h_tm1 mask_i :
  Forall (Forall (fun a => a = 0))
         (sense_hyp_attention epsilon self x h_tm1 mask_i) ->
  lstm_input_t epsilon self x h_tm1 mask_i
  = repeat 0 (Z.to_nat (input_dim (base self))).
Proof.
  intros Hz. unfold lstm_input_t.
  now apply K_sum_axes_zero, weighted_product_zero.
Qed.

Lemma switched_zeros (cs : list Z) (raw : list R) :
  Forall (fun a => a = 0) raw ->
  Forall (fun a => a = 0) (zip_with (fun c s => K_switch c s 0) cs raw).
Proof.
  intros Hraw. revert cs; induction Hraw as [|r raw Hr _ IH]; intros [|c cs];
    simpl; constructor.
  - unfold K_switch. now destruct (Z.eqb c 0).
  - apply IH.
Qed.

Lemma zero_prior_probabilities epsilon n mask_i :
  Forall (fun a => a = 0) (sense_probabilities epsilon 0 n mask_i).
Proof.
  assert (Hraw : Forall (fun a => a = 0) (raw_sense_scores 0 n)).
  { unfold raw_sense_scores. rewrite Forall_map, Forall_forall.
    intros ind _. apply Rmult_0_l. }
  assert (Hs : Forall (fun a => a = 0) (sense_scores 0 n mask_i)).
  { unfold sense_scores. destruct mask_i; [now apply switched_zeros | exact Hraw]. }
  unfold sense_probabilities. rewrite Forall_map.
  eapply Forall_impl; [|exact Hs].
  intros a ->. unfold Rdiv. apply Rmult_0_l.
Qed.

(** X9: a sense prior of 0 silences the timestep, in both modes and under
    any mask: every cell of the joint attention grid is 0 and the vector
    handed to the recurrent cell is the zero vector of [input_dim]
    components. *)
Theorem zero_prior_zero_input (epsilon : R) (self : OntoAttentionLSTM)
        (x_onto_aware : tensor3) (h_tm1 : vec) (mask_i : option (grid bool))
        (Hlam : sense_parameters x_onto_aware = 0) :
  Forall (Forall (fun a => a = 0))
         (sense_hyp_attention epsilon self x_onto_aware h_tm1 mask_i)
  /\ lstm_input_t epsilon self x_onto_aware h_tm1 mask_i
     = repeat 0 (Z.to_nat (input_dim (base self))).
Proof.
  assert (Hz : Forall (Forall (fun a => a = 0))
                 (sense_hyp_attention epsilon self x_onto_aware h_tm1 mask_i)).
  { unfold sense_hyp_attention. rewrite Hlam.
    apply zero_probabilities_grid, zero_prior_probabilities. }
  split; [exact Hz | now apply zero_attention_zero_input].
Qed.

Lemma zero_prior_zero_input_witness :
  Forall (Forall (fun a => a = 0))
         (sense_hyp_attention default_epsilon (example_layer 1 2 true)
            [[[3; 0]; [4; 0]]] [0] None)
  /\ lstm_input_t default_epsilon (example_layer 1 2 true)
                  [[[3; 0]; [4; 0]]] [0] None
     = repeat 0 (Z.to_nat (input_dim (base (example_layer 1 2 true)))).
Proof.
  apply (zero_prior_zero_input default_epsilon (example_layer 1 2 true)
           [[[3; 0]; [4; 0]]] [0] None).
  reflexivity.
Defined.

(** X10: a fully masked timestep hands the zero vector of [input_dim]
    components to the recurrent cell, in both modes and whatever the
    embeddings and the sense prior are. *)
Theorem fully_masked_zero_input (epsilon : R) (self : OntoAttentionLSTM)
        (x_onto_aware : tensor3) (h_tm1 : vec) (mask_i : option (grid bool))
        (Hfull : fully_masked mask_i) :
  lstm_input_t epsilon self x_onto_aware h_tm1 mask_i
  = repeat 0 (Z.to_nat (input_dim (base self))).
Proof.
  now apply zero_attention_zero_input, fully_masked_grid.
Qed.

Lemma fully_masked_zero_input_witness :
  lstm_input_t default_epsilon (example_layer 1 2 true)
               [[[3; 1]; [4; 1]]] [0] (Some [[false; false]])
  = repeat 0 (Z.to_nat (input_dim (base (example_layer 1 2 true)))).
Proof.
  apply (fully_masked_zero_input default_epsilon (example_layer 1 2 true)
           [[[3; 1]; [4; 1]]] [0] (Some [[false; false]])).
  reflexivity.
Defined.

(** ** A fully masked sense *)

Lemma masked_sense_score (m : grid bool) (raw : list R) s :
  forallb negb (nth s m []) = true ->
  nth s (zip_with (fun c r => K_switch c r 0) (sense_mask m) raw) 0 = 0.
Proof.
  unfold sense_mask.
  revert raw s; induction m as [|mr m IH]; intros raw s Hs.
  - destruct s; reflexivity.
  - destruct raw as [|r raw]; [destruct s; reflexivity|].
    destruct s as [|s]; simpl in *.
    + unfold K_switch. now rewrite sense_mask_zero, Hs.
    + now apply IH.
Qed.

Lemma masked_sense_probability epsilon lam n (m : grid bool) s :
  forallb negb (nth s m []) = true ->
  nth s (sense_probabilities epsilon lam n (Some m)) 0 = 0.
Proof.
  intros Hs. unfold sense_probabilities, sense_scores.
  set (D := K_sum _ + epsilon).
  assert (H0 : 0 = 0 / D) by (unfold Rdiv; now rewrite Rmult_0_l).
  rewrite H0 at 1.
  rewrite (map_nth (fun a => a / D)).
  rewrite (masked_sense_score m _ s Hs). now rewrite <- H0.
Qed.

Lemma zero_probability_row (g : grid R) (probs : list R) s :
  nth s probs 0 = 0 ->
  Forall (fun a => a = 0)
         (nth s (zip_with (fun row p => map (fun a => a * p) row) g probs) []).
Proof.
  revert probs s; induction g as [|row g IH]; intros probs s Hp.
  - destruct s; constructor.
  - destruct probs as [|p probs]; [destruct s; constructor|].
    destruct s as [|s]; simpl in *.
    + subst p. rewrite Forall_map, Forall_forall. intros a _. apply Rmult_0_r.
    + now apply IH.
Qed.

(** X11: in both modes, every cell of the joint attention grid that lies
    under a fully masked sense is 0. *)
Theorem masked_sense_zero_attention (epsilon : R) (self : OntoAttentionLSTM)
        (x_onto_aware : tensor3) (h_tm1 : vec) (mask_i : option (grid bool))
        (s : nat)
        (Hsense : sense_fully_masked mask_i s = true) :
  Forall (fun a => a = 0)
         (nth s (sense_hyp_attention epsilon self x_onto_aware h_tm1 mask_i) []).
Proof.
  destruct mask_i as [m|]; [|discriminate].
  simpl in Hsense. unfold sense_hyp_attention.
  apply zero_probability_row, masked_sense_probability, Hsense.
Qed.

Lemma masked_sense_zero_attention_witness :
  Forall (fun a => a = 0)
         (nth 1 (sense_hyp_attention default_epsilon (example_layer 2 2 true)
                   [[[3; 1]; [4; 1]]; [[5; 1]; [6; 1]]] [0]
                   (Some [[true; false]; [false; false]])) []).
Proof.
  apply (masked_sense_zero_attention default_epsilon (example_layer 2 2 true)
           [[[3; 1]; [4; 1]]; [[5; 1]; [6; 1]]] [0]
           (Some [[true; false]; [false; false]]) 1).
  reflexivity.
Defined.

(** ** The raw attention of the learned mode *)

Lemma big_sum_div (g : nat -> R) (c : R) n :
  big_sum (fun i => g i / c) n = big_sum g n / c.
Proof.
  induction n as [|n IH]; simpl.
  - unfold Rdiv. now rewrite Rmult_0_l.
  - rewrite IH. unfold Rdiv. ring.
Qed.

(** X12: in learned mode and without a mask, on a well-shaped step input
    with at least one sense and one hyp, the raw hypernym attention is a
    probability distribution over the [num_senses * num_hyps] slots: no
    cell is negative and the cells sum to 1. *)
Theorem learned_attention_distribution (self : OntoAttentionLSTM)
        (x_onto_aware : tensor3) (h_tm1 : vec)
        (Hmode : use_attention self = true)
        (Hx : rect (num_senses self) (num_hyps self) x_onto_aware)
        (Hsenses : (0 < num_senses self)%nat)
        (Hhyps : (0 < num_hyps self)%nat) :
  Forall (Forall (fun a => 0 <= a))
         (hyp_attention self (x_synset_embeddings x_onto_aware) h_tm1 None)
  /\ grid_sum (hyp_attention self (x_synset_embeddings x_onto_aware) h_tm1
                             None) = 1.
Proof.
  unfold hyp_attention. rewrite Hmode.
  rewrite (switched_scores_spec self x_onto_aware h_tm1 None _ _ Hx I).
  rewrite (joint_softmax_tabulate
             (spec_cell_score self x_onto_aware h_tm1 None)).
  set (f := spec_cell_score self x_onto_aware h_tm1 None).
  set (Z := big_sum (fun s' => big_sum (fun k' => exp (f s' k'))
                                       (num_hyps self)) (num_senses self)).
  assert (HZ : 0 < Z).
  { unfold Z. apply big_sum_pos; [|assumption].
    intros s _. apply big_sum_pos; [|assumption].
    intros k _. apply exp_pos. }
  split.
  - rewrite Forall_map, Forall_forall. intros s _.
    rewrite Forall_map, Forall_forall. intros k _.
    left. apply Rdiv_lt_0_compat; [apply exp_pos | exact HZ].
  - rewrite (grid_sum_tabulate (fun s k => exp (f s k) / Z)).
    rewrite (big_sum_ext _ (fun s => big_sum (fun k => exp (f s k))
                                             (num_hyps self) / Z))
      by (intros s _; apply big_sum_div).
    rewrite big_sum_div. fold Z. field. lra.
Qed.

Lemma learned_attention_distribution_witness :
  Forall (Forall (fun a => 0 <= a))
         (hyp_attention (example_layer 1 2 true)
            (x_synset_embeddings [[[3; 1]; [4; 1]]]) [0] None)
  /\ grid_sum (hyp_attention (example_layer 1 2 true)
                 (x_synset_embeddings [[[3; 1]; [4; 1]]]) [0] None) = 1.
Proof.
  apply (learned_attention_distribution (example_layer 1 2 true)
           [[[3; 1]; [4; 1]]] [0]).
  - reflexivity.
  - split; [reflexivity | repeat constructor].
  - simpl; lia.
  - simpl; lia.
Defined.

(** ** The joint weights are never negative *)

Lemma Forall_firstn_keep {A} (P : A -> Prop) n (l : list A) :
  Forall P l -> Forall P (firstn n l).
Proof.
  intros Hl. revert n; induction Hl as [|a l Ha _ IH]; intros [|n]; simpl;
    constructor; auto.
Qed.

Lemma Forall_skipn_keep {A} (P : A -> Prop) n (l : list A) :
  Forall P l -> Forall P (skipn n l).
Proof.
  intros Hl. revert n; induction Hl as [|a l Ha Hl IH]; intros [|n]; simpl;
    auto.
Qed.

Lemma K_reshape_Forall {A} (P : A -> Prop) rows cols (l : list A) :
  Forall P l -> Forall (Forall P) (K_reshape rows cols l).
Proof.
  revert l; induction rows as [|r IH]; intros l Hl; simpl; constructor.
  - now apply Forall_firstn_keep.
  - now apply IH, Forall_skipn_keep.
Qed.

Lemma K_softmax_nonneg (l : list R) : Forall (fun a => 0 <= a) (K_softmax l).
Proof.
  unfold K_softmax.
  assert (Hexp : Forall (fun a => 0 <= a) (map exp l)).
  { rewrite Forall_map, Forall_forall. intros s _. left. apply exp_pos. }
  pose proof (K_sum_dominates _ Hexp) as Hdom.
  rewrite Forall_map in Hdom. rewrite Forall_map.
  eapply Forall_impl; [|exact Hdom].
  intros s Hs. cbv beta in Hs. pose proof (exp_pos s) as Hpos.
  left. apply Rdiv_lt_0_compat; lra.
Qed.

Lemma switch_grid_nonneg (mask_i : option (grid bool)) (g : grid R) :
  Forall (Forall (fun a => 0 <= a)) g ->
  Forall (Forall (fun a => 0 <= a)) (switch_grid mask_i g).
Proof.
  destruct mask_i as [m|]; simpl; [|auto].
  intros Hg. revert m; induction Hg as [|row g Hrow _ IH]; intros [|mr m];
    simpl; constructor.
  - clear -Hrow. revert mr; induction Hrow as [|a row Ha _ IHr]; intros [|b mr];
      simpl; constructor.
    + rewrite switch_bit. destruct b; lra.
    + apply IHr.
  - apply IH.
Qed.

Lemma hyp_attention_nonneg self (emb : tensor3) h_tm1 mask_i :
  Forall (Forall (fun a => 0 <= a)) (hyp_attention self emb h_tm1 mask_i).
Proof.
  unfold hyp_attention. destruct (use_attention self).
  - apply K_reshape_Forall, K_softmax_nonneg.
  - apply switch_grid_nonneg.
    rewrite Forall_map, Forall_forall. intros row _.
    rewrite Forall_map, Forall_forall. intros e _. lra.
Qed.

Lemma joint_cells_nonneg epsilon (g : grid R) (probs : list R) :
  0 < epsilon ->
  Forall (Forall (fun a => 0 <= a)) g -> Forall (fun p => 0 <= p) probs ->
  Forall (Forall (fun a => 0 <= a))
         (zip_with (fun row p => map (fun a => a * p) row)
                   (hyp_given_sense_attention epsilon g) probs).
Proof.
  intros Heps Hg. revert probs; induction Hg as [|row g Hrow _ IH];
    intros [|p probs] Hp; simpl; constructor.
  - inversion Hp; subst.
    pose proof (K_sum_nonneg row Hrow) as HS.
    rewrite !Forall_map. eapply Forall_impl; [|exact Hrow].
    intros a Ha. apply Rmult_le_pos; [|assumption].
    apply Rmult_le_pos; [assumption|]. left. apply Rinv_0_lt_compat. lra.
  - inversion Hp; subst. now apply IH.
Qed.

(** X13: in both modes, on a well-shaped step input, for epsilon > 0 and a
    sense prior lambda >= 0, no cell of the joint attention grid is
    negative. *)
Theorem joint_attention_nonnegative (epsilon : R) (self : OntoAttentionLSTM)
        (x_onto_aware : tensor3) (h_tm1 : vec) (mask_i : option (grid bool))
        (Heps : 0 < epsilon)
        (Hlam : 0 <= sense_parameters x_onto_aware)
        (Hx : rect (num_senses self) (num_hyps self) x_onto_aware)
        (Hmask : mask_rect (num_senses self) (num_hyps self) mask_i) :
  Forall (Forall (fun a => 0 <= a))
         (sense_hyp_attention epsilon self x_onto_aware h_tm1 mask_i).
Proof.
  pose proof (hyp_attention_nonneg self (x_synset_embeddings x_onto_aware)
                                   h_tm1 mask_i) as Hatt.
  pose proof (sense_probabilities_nonneg epsilon (sense_parameters x_onto_aware)
                (num_senses self) mask_i Heps Hlam) as Hp.
  unfold sense_hyp_attention. now apply joint_cells_nonneg.
Qed.

Lemma joint_attention_nonnegative_witness :
  Forall (Forall (fun a => 0 <= a))
         (sense_hyp_attention default_epsilon (example_layer 1 2 true)
            [[[3; 1]; [4; 1]]] [0] (Some [[true; false]])).
Proof.
  apply (joint_attention_nonnegative default_epsilon (example_layer 1 2 true)
           [[[3; 1]; [4; 1]]] [0] (Some [[true; false]])).
  - unfold default_epsilon. lra.
  - change (0 <= 1). lra.
  - split; [reflexivity | repeat constructor].
  - split; [reflexivity | repeat constructor].
Defined.

(** ** No mask and the mask of ones *)

Lemma all_ones_rect n h : rect n h (all_ones_mask n h).
Proof.
  unfold all_ones_mask. split; [apply repeat_length|].
  rewrite Forall_forall. intros row Hin.
  apply repeat_spec in Hin. subst row. apply repeat_length.
Qed.

Lemma all_ones_nth n h s k : nth k (nth s (all_ones_mask n h) []) true = true.
Proof.
  unfold all_ones_mask.
  destruct (Nat.lt_ge_cases s n) as [Hs | Hs].
  - rewrite nth_repeat_lt by assumption. apply nth_repeat.
  - rewrite (nth_overflow (repeat (repeat true h) n) [])
      by (rewrite repeat_length; lia).
    now destruct k.
Qed.

Lemma switch_grid_all_ones n h (g : grid R) :
  rect n h g -> switch_grid (Some (all_ones_mask n h)) g = g.
Proof.
  intros Hg. simpl.
  rewrite (zip_with_grid_tabulate _ n h _ g true 0 (all_ones_rect n h) Hg).
  symmetry. etransitivity; [apply (grid_tabulate n h g 0 Hg)|].
  apply map_ext. intros s. apply map_ext. intros k.
  now rewrite all_ones_nth.
Qed.

Lemma mask_embeddings_all_ones n h (emb : tensor3) :
  rect n h emb -> mask_embeddings (Some (all_ones_mask n h)) emb = emb.
Proof.
  intros Hg. simpl.
  rewrite (zip_with_grid_tabulate _ n h _ emb true [] (all_ones_rect n h) Hg).
  symmetry. etransitivity; [apply (grid_tabulate n h emb [] Hg)|].
  apply map_ext. intros s. apply map_ext. intros k.
  now rewrite all_ones_nth.
Qed.

Lemma sense_scores_all_ones lam n h :
  (0 < h)%nat ->
  sense_scores lam n (Some (all_ones_mask n h)) = sense_scores lam n None.
Proof.
  intros Hh.
  transitivity (map (spec_sense_score lam (Some (all_ones_mask n h))) (seq 0 n));
    [apply sense_scores_spec, (proj1 (all_ones_rect n h))|].
  transitivity (map (spec_sense_score lam None) (seq 0 n));
    [|symmetry; apply (sense_scores_spec lam n None I)].
  apply map_ext_in. intros k Hk. apply in_seq in Hk.
  unfold spec_sense_score, sense_fully_masked, all_ones_mask.
  rewrite nth_repeat_lt by lia.
  destruct h as [|h]; [lia | reflexivity].
Qed.

Lemma hyp_attention_all_ones self (x : tensor3) h_tm1 n h :
  rect n h x ->
  hyp_attention self (x_synset_embeddings x) h_tm1 (Some (all_ones_mask n h))
  = hyp_attention self (x_synset_embeddings x) h_tm1 None.
Proof.
  intros Hx. unfold hyp_attention. destruct (use_attention self).
  - now rewrite (switch_grid_all_ones n h _ (hyp_scores_rect self x h_tm1 n h Hx)).
  - rewrite (switch_grid_all_ones n h); [reflexivity|].
    unfold x_synset_embeddings. now repeat apply rect_map.
Qed.

(** X14: running without a mask is running with the mask of ones.  On a
    step input of [num_senses] senses with [h > 0] hyps each, the step with
    no mask returns what it returns with every bit set: the same hidden
    vector, cell state and attention grid, in both modes. *)
Theorem no_mask_is_all_ones (epsilon : R)
        (LSTM_step : LSTM -> vec -> list vec -> vec * (vec * vec))
        (self : OntoAttentionLSTM) (x_onto_aware : tensor3)
        (states : list vec) (h : nat)
        (Hx : rect (num_senses self) h x_onto_aware)
        (Hh : (0 < h)%nat) :
  _step epsilon LSTM_step self x_onto_aware states
        (Some (all_ones_mask (num_senses self) h))
  = _step epsilon LSTM_step self x_onto_aware states None.
Proof.
  assert (Hatt : forall h_tm1,
            sense_hyp_attention epsilon self x_onto_aware h_tm1
                                (Some (all_ones_mask (num_senses self) h))
            = sense_hyp_attention epsilon self x_onto_aware h_tm1 None).
  { intros h_tm1. unfold sense_hyp_attention, sense_probabilities.
    rewrite (hyp_attention_all_ones self x_onto_aware h_tm1 _ h Hx).
    now rewrite (sense_scores_all_ones _ _ h Hh). }
  assert (Hin : forall h_tm1,
            lstm_input_t epsilon self x_onto_aware h_tm1
                         (Some (all_ones_mask (num_senses self) h))
            = lstm_input_t epsilon self x_onto_aware h_tm1 None).
  { intros h_tm1. unfold lstm_input_t. rewrite Hatt.
    rewrite (mask_embeddings_all_ones (num_senses self) h); [reflexivity|].
    unfold x_synset_embeddings. now apply rect_map. }
  unfold _step. now rewrite Hatt, Hin.
Qed.

Lemma no_mask_is_all_ones_witness :
  _step default_epsilon (fun _ v _ => (v, (v, v))) (example_layer 1 2 true)
        [[[3; 1]; [4; 1]]] [[0]; [0]]
        (Some (all_ones_mask (num_senses (example_layer 1 2 true)) 2))
  = _step default_epsilon (fun _ v _ => (v, (v, v))) (example_layer 1 2 true)
          [[[3; 1]; [4; 1]]] [[0]; [0]] None.
Proof.
  apply (no_mask_is_all_ones default_epsilon (fun _ v _ => (v, (v, v)))
           (example_layer 1 2 true) [[[3; 1]; [4; 1]]] [[0]; [0]] 2).
  - split; [reflexivity | repeat constructor].
  - lia.
Defined.

(** ** The weights of the uniform mode *)

Lemma joint_cell (epsilon : R) (g : grid R) (probs : list R) s k :
  (s < length g)%nat -> (s < length probs)%nat ->
  (k < length (nth s g []))%nat ->
  nth k (nth s (zip_with (fun row p => map (fun a => a * p) row)
                  (hyp_given_sense_attention epsilon g) probs) []) 0
  = nth k (nth s g []) 0 / (K_sum (nth s g []) + epsilon) * nth s probs 0.
Proof.
  intros Hs Hp Hk. unfold hyp_given_sense_attention.
  rewrite (zip_with_nth _ _ _ _ [] 0 []) by (rewrite ?length_map; lia).
  rewrite (nth_map_in _ g s [] []) by lia.
  rewrite (nth_map_in _ _ k 0 0) by (rewrite length_map; lia).
  rewrite (nth_map_in _ _ k 0 0) by lia.
  reflexivity.
Qed.

(** X15: in uniform mode each sense's probability is shared equally among
    its unmasked hyps: on a well-shaped step input, the joint weight of an
    unmasked slot (s, k) is [1 / (c + epsilon)] times the probability of
    sense [s], where [c] is the number of unmasked hyps of that sense (all
    [num_hyps] when there is no mask), whatever the embeddings and the
    hidden state are. *)
Theorem uniform_cell_weight (epsilon : R) (self : OntoAttentionLSTM)
        (x_onto_aware : tensor3) (h_tm1 : vec) (mask_i : option (grid bool))
        (s k : nat)
        (Hmode : use_attention self = false)
        (Hx : rect (num_senses self) (num_hyps self) x_onto_aware)
        (Hmask : mask_rect (num_senses self) (num_hyps self) mask_i)
        (Hs : (s < num_senses self)%nat) (Hk : (k < num_hyps self)%nat)
        (Hslot : slot_masked mask_i s k = false) :
  nth k (nth s (sense_hyp_attention epsilon self x_onto_aware h_tm1 mask_i) [])
      0
  = 1 / (INR (unmasked_hyps mask_i (num_hyps self) s) + epsilon)
    * nth s (sense_probabilities epsilon (sense_parameters x_onto_aware)
                                 (num_senses self) mask_i) 0.
Proof.
  assert (Hplen : length (sense_probabilities epsilon
                            (sense_parameters x_onto_aware)
                            (num_senses self) mask_i) = num_senses self).
  { unfold sense_probabilities. rewrite length_map.
    apply sense_scores_length. destruct mask_i; [apply Hmask | exact I]. }
  unfold sense_hyp_attention.
  destruct mask_i as [m|].
  - rewrite (uniform_attention_mask self x_onto_aware h_tm1 m _ _ Hmode Hx Hmask).
    pose proof (rect_map (fun b : bool => if b then 1 else 0) _ _ m Hmask)
      as Hrect.
    rewrite joint_cell;
      [| destruct Hrect; lia | lia
       | rewrite (rect_nth_length _ _ _ s Hrect Hs); lia].
    rewrite (map_grid_nth (fun b : bool => if b then 1 else 0) _ _ m s k 0 true
                          Hmask Hs Hk).
    rewrite (nth_map_in _ m s [] []) by (destruct Hmask; lia).
    rewrite K_sum_indicator.
    simpl in Hslot. apply negb_false_iff in Hslot. rewrite Hslot.
    reflexivity.
  - rewrite (uniform_attention_ones self x_onto_aware h_tm1 Hmode).
    pose proof (rect_map (fun _ : list R => 1) _ _ x_onto_aware Hx) as Hrect.
    rewrite joint_cell;
      [| destruct Hrect; lia | lia
       | rewrite (rect_nth_length _ _ _ s Hrect Hs); lia].
    rewrite (map_grid_nth (fun _ : list R => 1) _ _ x_onto_aware s k 0 []
                          Hx Hs Hk).
    rewrite (nth_map_in _ x_onto_aware s [] []) by (destruct Hx; lia).
    rewrite K_sum_ones, (rect_nth_length _ _ _ s Hx Hs).
    reflexivity.
Qed.

Lemma uniform_cell_weight_witness :
  nth 0 (nth 0 (sense_hyp_attention default_epsilon (example_layer 1 2 false)
                  [[[3; 1]; [4; 1]]] [0] (Some [[true; false]])) []) 0
  = 1 / (INR (unmasked_hyps (Some [[true; false]])
                            (num_hyps (example_layer 1 2 false)) 0)
         + default_epsilon)
    * nth 0 (sense_probabilities default_epsilon
               (sense_parameters [[[3; 1]; [4; 1]]])
               (num_senses (example_layer 1 2 false))
               (Some [[true; false]])) 0.
Proof.
  apply (uniform_cell_weight default_epsilon (example_layer 1 2 false)
           [[[3; 1]; [4; 1]]] [0] (Some [[true; false]]) 0 0).
  - reflexivity.
  - split; [reflexivity | repeat constructor].
  - split; [reflexivity | repeat constructor].
  - simpl; lia.
  - simpl; lia.
  - reflexivity.
Defined.
